(** * Neon Lander: the physics and status core of lunar_lander_cyberpunk.py

    A shallow embedding of the [Particle], [LandingPad] and [Lander] classes
    and of the part of [run_game] that drives them, followed by the
    properties the specification states about them.

    Number model.  The code is embedded twice.  In the first embedding
    Python floats and the doubles inside [pygame.Vector2] are exact
    rationals ([Q]) and integers ([screen_size], the coordinates of
    [pygame.Rect]) are [Z]: it is the code with the rounding left out, and
    the theorems are stated about it.  The module [Binary64] repeats the
    [Lander] methods on IEEE binary64 doubles, rounding every operation as
    CPython does: it replays runs of the program bit for bit, and it is
    where a statement that holds in exact arithmetic only is shown to fail
    for the program as it runs.

    pygame.  [Vector2.rotate], [Vector2.normalize] and [Vector2.length] need
    trigonometry and square roots; they are taken as parameters
    ([Vector2.Methods]).  [pygame.Rect] is integer valued and is modelled
    from its documented behaviour.

    Randomness.  The module level generator of [random] is an explicit
    stream of the values returned by [random.random()]. *)

From Stdlib Require Import QArith Qabs Qround Qminmax ZArith List Bool Lia Lqa.
From Stdlib Require PrimFloat FloatOps SpecFloat Uint63.
Import ListNotations.
Open Scope Q_scope.

(** ** Python builtins used by the game *)

Module Py.

(** [x < y] on floats, as a boolean. *)
Definition ltb (x y : Q) : bool := negb (Qle_bool y x).

(** [max(a, b)]: the first argument is kept unless the second is
    strictly greater. *)
Definition max (a b : Q) : Q := if ltb a b then b else a.

(** [min(a, b)]: the first argument is kept unless the second is
    strictly smaller. *)
Definition min (a b : Q) : Q := if ltb b a then b else a.

(** [abs(x)]. *)
Definition abs (x : Q) : Q := Qabs x.

(** [x % m] on floats: the remainder has the sign of [m]. *)
Definition fmod (x m : Q) : Q := x - m * inject_Z (Qfloor (x / m)).

(** [int(x)]: truncation toward zero. *)
Definition int (x : Q) : Z := Z.quot (Qnum x) (Zpos (Qden x)).

(** [max(a, b)] and [min(a, b)] on integers. *)
Definition zmax (a b : Z) : Z := if (a <? b)%Z then b else a.

Definition zmin (a b : Z) : Z := if (b <? a)%Z then b else a.

End Py.

(** ** The [random] module *)

Module Random.

(** The values the following calls of [random.random()] return. *)
Definition Rng := nat -> Q.

Definition next (g : Rng) : Rng := fun n => g (S n).

(** [random.uniform(a, b)] is [a + (b - a) * random()]. *)
Definition uniform (a b : Q) (g : Rng) : Q * Rng :=
  (a + (b - a) * g O, next g).

(** A generator whose values lie in the unit interval, as those of
    [random.random()] do. *)
Definition unit (g : Rng) : Prop := forall n, 0 <= g n <= 1.

End Random.

(** ** pygame.Vector2 *)

Module Vector2.

Record t := mk { x : Q; y : Q }.

(** [v + w] *)
Definition add (v w : t) : t := mk (x v + x w) (y v + y w).

(** [v * k] *)
Definition scale (v : t) (k : Q) : t := mk (x v * k) (y v * k).

(** The methods that are not rational functions of the coordinates. *)
Record Methods := {
  rotate : t -> Q -> t;      (* v.rotate(degrees) *)
  normalize : t -> t;        (* v.normalize() *)
  length : t -> Q            (* v.length() *)
}.

End Vector2.

(** ** pygame.Rect: integer coordinates, [y] grows downward *)

Module Rect.

Record t := mk { x : Z; y : Z; w : Z; h : Z }.

Definition top (r : t) : Z := y r.
Definition bottom (r : t) : Z := (y r + h r)%Z.

(** [r.center = (cx, cy)] moves the rectangle, keeping its size. *)
Definition set_center (r : t) (cx cy : Z) : t :=
  mk (cx - Z.shiftr (w r) 1) (cy - Z.shiftr (h r) 1) (w r) (h r).

(** [r.inflate(dx, dy)] grows the rectangle around its centre. *)
Definition inflate (r : t) (dx dy : Z) : t :=
  mk (x r - Z.quot dx 2) (y r - Z.quot dy 2) (w r + dx) (h r + dy).

(** [a.colliderect(b)]: the two rectangles overlap; rectangles of zero
    width or height never collide. *)
Definition colliderect (a b : t) : bool :=
  if (w a =? 0)%Z || (h a =? 0)%Z || (w b =? 0)%Z || (h b =? 0)%Z then false
  else
    (Z.min (x a) (x a + w a) <? Z.max (x b) (x b + w b))%Z
    && (Z.min (y a) (y a + h a) <? Z.max (y b) (y b + h b))%Z
    && (Z.min (x b) (x b + w b) <? Z.max (x a) (x a + w a))%Z
    && (Z.min (y b) (y b + h b) <? Z.max (y a) (y a + h a))%Z.

End Rect.

(** ** Gameplay tuning *)

Record GameConfig := {
  screen_size : Z * Z;
  target_fps : Z;
  gravity : Q;
  thrust_force : Q;
  fuel_capacity : Q;
  fuel_burn_rate : Q;
  rotation_speed : Q;
  landing_pad_width : Z;
  landing_pad_height : Z;
  max_landing_speed : Q;
  max_horizontal_speed : Q;
  max_landing_angle : Q;
  star_count : Z;
  scanline_spacing : Z
}.

(** [GameConfig()]: the dataclass defaults. *)
Definition GameConfig_default : GameConfig := {|
  screen_size := (960, 720)%Z;
  target_fps := 60;
  gravity := 36;
  thrust_force := 120;
  fuel_capacity := 100;
  fuel_burn_rate := 22;
  rotation_speed := 90;
  landing_pad_width := 160;
  landing_pad_height := 12;
  max_landing_speed := 42;
  max_horizontal_speed := 32;
  max_landing_angle := 12;
  star_count := 120;
  scanline_spacing := 4
|}.

Definition Color := (Z * Z * Z)%type.

(** [NEON_PALETTE["thruster_glow"]] *)
Definition thruster_glow : Color := (0, 255, 255)%Z.

(** ** Particle *)

Module Particle.

Record t := mk {
  position : Vector2.t;
  velocity : Vector2.t;
  lifetime : Q;
  color : Color;
  size : Q
}.

(** [Particle.update(dt)]: the particle after the call and the returned
    flag [lifetime > 0]. *)
Definition update (dt : Q) (p : t) : t * bool :=
  let position' := Vector2.add (position p) (Vector2.scale (velocity p) dt) in
  let lifetime' := lifetime p - dt in
  let size' := Py.max 0 (size p - dt * 6) in
  (mk position' (velocity p) lifetime' (color p) size', Py.ltb 0 lifetime').

(** What [Particle.draw] paints: a circle of [glow_radius] in the
    RGBA colour [glow_color] on an 8 x 8 surface blitted at [glow_at]. *)
Record Glow := {
  glow_color : Z * Z * Z * Z;
  glow_radius : Z;
  glow_at : Vector2.t
}.

(** [Particle.draw(surface)]: nothing for a particle whose lifetime is
    over. *)
Definition draw (p : t) : option Glow :=
  if Qle_bool (lifetime p) 0 then None
  else
    let alpha := Py.zmax 0 (Py.zmin 255 (Py.int (255 * lifetime p))) in
    let '(r, g, b) := color p in
    Some {| glow_color := (r, g, b, alpha);
            glow_radius := Py.zmax 1 (Py.int (size p));
            glow_at := Vector2.add (position p) (Vector2.mk (- (4)) (- (4))) |}.

End Particle.

(** ** LandingPad *)

Module LandingPad.

Record t := mk { rect : Rect.t; timer : Q }.

(** [LandingPad(config)], where [x] is the value drawn by
    [random.randint]. *)
Definition init (config : GameConfig) (x : Z) : t :=
  let height := snd (screen_size config) in
  let pad_width := landing_pad_width config in
  let y := (height - landing_pad_height config * 6)%Z in
  mk (Rect.set_center (Rect.mk 0 0 pad_width (landing_pad_height config)) x y) 0.

Definition update (dt : Q) (pad : t) : t := mk (rect pad) (timer pad + dt).

(** The bounds handed to [random.randint] by [LandingPad(config)]. *)
Definition x_low (config : GameConfig) : Z :=
  (landing_pad_width config / 2 + 40)%Z.

Definition x_high (config : GameConfig) : Z :=
  (fst (screen_size config) - landing_pad_width config / 2 - 40)%Z.

(** [rect.right] of the pad. *)
Definition right (pad : t) : Z := (Rect.x (rect pad) + Rect.w (rect pad))%Z.

End LandingPad.

(** ** Keyboard state *)

Inductive Key := K_LEFT | K_a | K_RIGHT | K_d | K_UP | K_w | K_SPACE.

(** [pygame.key.get_pressed()] restricted to the keys the lander reads. *)
Definition Keys := Key -> bool.

(** ** Lander *)

Inductive Status := flying | landed | crashed.

Definition Status_eqb (s1 s2 : Status) : bool :=
  match s1, s2 with
  | flying, flying | landed, landed | crashed, crashed => true
  | _, _ => false
  end.

Module Lander.

Record t := mk {
  config : GameConfig;
  position : Vector2.t;
  velocity : Vector2.t;
  angle : Q;
  fuel : Q;
  thrusting : bool;
  particles : list Particle.t;
  status : Status;
  status_timer : Q
}.

(** Field assignments [self.f = v]. *)
Definition set_position (v : Vector2.t) (l : t) : t :=
  mk (config l) v (velocity l) (angle l) (fuel l) (thrusting l)
     (particles l) (status l) (status_timer l).
Definition set_velocity (v : Vector2.t) (l : t) : t :=
  mk (config l) (position l) v (angle l) (fuel l) (thrusting l)
     (particles l) (status l) (status_timer l).
Definition set_angle (a : Q) (l : t) : t :=
  mk (config l) (position l) (velocity l) a (fuel l) (thrusting l)
     (particles l) (status l) (status_timer l).
Definition set_fuel (f : Q) (l : t) : t :=
  mk (config l) (position l) (velocity l) (angle l) f (thrusting l)
     (particles l) (status l) (status_timer l).
Definition set_thrusting (b : bool) (l : t) : t :=
  mk (config l) (position l) (velocity l) (angle l) (fuel l) b
     (particles l) (status l) (status_timer l).
Definition set_particles (ps : list Particle.t) (l : t) : t :=
  mk (config l) (position l) (velocity l) (angle l) (fuel l) (thrusting l)
     ps (status l) (status_timer l).
Definition set_status (s : Status) (l : t) : t :=
  mk (config l) (position l) (velocity l) (angle l) (fuel l) (thrusting l)
     (particles l) s (status_timer l).
Definition set_status_timer (q : Q) (l : t) : t :=
  mk (config l) (position l) (velocity l) (angle l) (fuel l) (thrusting l)
     (particles l) (status l) q.

(** [Lander(config, start_pos)] *)
Definition init (config : GameConfig) (start_pos : Q * Q) : t :=
  mk config (Vector2.mk (fst start_pos) (snd start_pos)) (Vector2.mk 0 0)
     0 (fuel_capacity config) false [] flying 0.

(** [reset] calls [__init__] again on the same object. *)
Definition reset (config : GameConfig) (start_pos : Q * Q) (l : t) : t :=
  init config start_pos.

Definition handle_input (keys : Keys) (dt : Q) (l : t) : t :=
  let l := set_thrusting false l in
  if negb (Status_eqb (status l) flying) then l
  else
    let l := if keys K_LEFT || keys K_a
             then set_angle (angle l + rotation_speed (config l) * dt) l
             else l in
    let l := if keys K_RIGHT || keys K_d
             then set_angle (angle l - rotation_speed (config l) * dt) l
             else l in
    if (keys K_UP || keys K_w || keys K_SPACE) && Py.ltb 0 (fuel l)
    then set_thrusting true l
    else l.

(** [update_particles]: every particle is updated, and the updated
    particle is kept when [Particle.update] returned [True]. *)
Fixpoint update_all (dt : Q) (ps : list Particle.t) : list Particle.t :=
  match ps with
  | [] => []
  | p :: ps' =>
      let (p', alive) := Particle.update dt p in
      if alive then p' :: update_all dt ps' else update_all dt ps'
  end.

Definition update_particles (dt : Q) (l : t) : t :=
  set_particles (update_all dt (particles l)) l.

(** The normalised angle distance of [check_landing]. *)
Definition angle_delta (a : Q) : Q := Py.abs (Py.fmod (a + 180) 360 - 180).

(** The 42 x 42 box centred on the lander. *)
Definition lander_rect (l : t) : Rect.t :=
  Rect.set_center (Rect.mk 0 0 42 42)
    (Py.int (Vector2.x (position l))) (Py.int (Vector2.y (position l))).

(** The guard of the landing evaluation. *)
Definition touches_pad (l : t) (pad : LandingPad.t) : bool :=
  (Rect.top (LandingPad.rect pad) <=? Rect.bottom (lander_rect l))%Z
  && Rect.colliderect (lander_rect l) (Rect.inflate (LandingPad.rect pad) 40 12).

Definition check_landing (pad : LandingPad.t) (l : t) : t :=
  if negb (Status_eqb (status l) flying) then l
  else if touches_pad l pad then
    let vertical_speed := Py.abs (Vector2.y (velocity l)) in
    let horizontal_speed := Py.abs (Vector2.x (velocity l)) in
    let l :=
      if Qle_bool vertical_speed (max_landing_speed (config l))
         && Qle_bool horizontal_speed (max_horizontal_speed (config l))
         && Qle_bool (angle_delta (angle l)) (max_landing_angle (config l))
      then set_status landed l
      else set_status crashed l in
    set_status_timer 0 l
  else l.

Section Physics.

Variable vm : Vector2.Methods.

(** One round of the [for _ in range(3)] loop. *)
Definition emit_one (base_position thrust_vector : Vector2.t)
    (g : Random.Rng) : Particle.t * Random.Rng :=
  let direction :=
    if negb (Qeq_bool (Vector2.length vm thrust_vector) 0)
    then Vector2.normalize vm thrust_vector
    else Vector2.mk 0 1 in
  let (spread, g) := Random.uniform (-20) 20 g in
  let (speed, g) := Random.uniform 60 120 g in
  let velocity :=
    Vector2.scale (Vector2.scale (Vector2.rotate vm direction spread) speed)
                  (-0.65) in
  let (jx, g) := Random.uniform (-10) 10 g in
  let (jy, g) := Random.uniform (-10) 10 g in
  let velocity := Vector2.add velocity (Vector2.mk jx jy) in
  let (lifetime, g) := Random.uniform 0.3 0.6 g in
  let (size, g) := Random.uniform 2 4 g in
  (Particle.mk base_position velocity lifetime thruster_glow size, g).

Fixpoint emit_loop (n : nat) (base_position thrust_vector : Vector2.t)
    (g : Random.Rng) (ps : list Particle.t) : list Particle.t * Random.Rng :=
  match n with
  | O => (ps, g)
  | S n' =>
      let (p, g) := emit_one base_position thrust_vector g in
      emit_loop n' base_position thrust_vector g (ps ++ [p])
  end.

Definition emit_thruster_particles (thrust_vector : Vector2.t)
    (g : Random.Rng) (l : t) : t * Random.Rng :=
  let base_position :=
    Vector2.add (position l)
                (Vector2.rotate vm (Vector2.mk 0 20) (- angle l)) in
  let (ps, g) := emit_loop 3 base_position thrust_vector g (particles l) in
  (set_particles ps l, g).

Definition update (dt : Q) (g : Random.Rng) (l : t) : t * Random.Rng :=
  if negb (Status_eqb (status l) flying)
  then (set_status_timer (status_timer l + dt) l, g)
  else
    let gravity_v := Vector2.mk 0 (gravity (config l)) in
    let acceleration := gravity_v in
    let '(acceleration, l, g) :=
      if thrusting l && Py.ltb 0 (fuel l) then
        let thrust_vector :=
          Vector2.rotate vm (Vector2.mk 0 (- thrust_force (config l)))
                         (- angle l) in
        let acceleration := Vector2.add acceleration thrust_vector in
        let l := set_fuel (Py.max 0 (fuel l - fuel_burn_rate (config l) * dt)) l in
        let (l, g) := emit_thruster_particles thrust_vector g l in
        (acceleration, l, g)
      else (acceleration, set_thrusting false l, g) in
    let l := set_velocity (Vector2.add (velocity l) (Vector2.scale acceleration dt)) l in
    let l := set_position (Vector2.add (position l) (Vector2.scale (velocity l) dt)) l in
    let (width, height) := screen_size (config l) in
    let l := set_position
               (Vector2.mk (Py.max 40 (Py.min (inject_Z (width - 40))
                                              (Vector2.x (position l))))
                           (Vector2.y (position l))) l in
    let l := if Py.ltb (inject_Z (height + 80)) (Vector2.y (position l))
             then set_status crashed l
             else l in
    (update_particles dt l, g).

(** The lander part of one pass of the main loop of [run_game]. *)
Definition frame (keys : Keys) (dt : Q) (pad : LandingPad.t)
    (g : Random.Rng) (l : t) : t * Random.Rng :=
  let l := handle_input keys dt l in
  let (l, g) := update dt g l in
  (check_landing pad l, g).

(** Consecutive passes of the loop against one pad; each pass comes
    with the keyboard state and the [dt] of its frame. *)
Fixpoint run (frames : list (Keys * Q)) (pad : LandingPad.t)
    (g : Random.Rng) (l : t) : t * Random.Rng :=
  match frames with
  | [] => (l, g)
  | (keys, dt) :: rest =>
      let (l, g) := frame keys dt pad g l in
      run rest pad g l
  end.

(** Consecutive calls of [update] alone. *)
Fixpoint updates (dts : list Q) (g : Random.Rng) (l : t) : t * Random.Rng :=
  match dts with
  | [] => (l, g)
  | dt :: rest => let (l, g) := update dt g l in updates rest g l
  end.

(** Consecutive [handle_input]; [update] pairs under one keyboard
    state. *)
Fixpoint steer (keys : Keys) (dts : list Q) (g : Random.Rng) (l : t)
    : t * Random.Rng :=
  match dts with
  | [] => (l, g)
  | dt :: rest =>
      let (l, g) := update dt g (handle_input keys dt l) in
      steer keys rest g l
  end.

(** The particles one thrusting [update] spawns. *)
Definition spawned (g : Random.Rng) (l : t) : list Particle.t :=
  if thrusting l && Py.ltb 0 (fuel l) then
    let thrust_vector :=
      Vector2.rotate vm (Vector2.mk 0 (- thrust_force (config l)))
                     (- angle l) in
    let base_position :=
      Vector2.add (position l)
                  (Vector2.rotate vm (Vector2.mk 0 20) (- angle l)) in
    fst (emit_loop 3 base_position thrust_vector g [])
  else [].

(** The acceleration [update] integrates. *)
Definition acceleration (l : t) : Vector2.t :=
  if thrusting l && Py.ltb 0 (fuel l) then
    Vector2.add (Vector2.mk 0 (gravity (config l)))
      (Vector2.rotate vm (Vector2.mk 0 (- thrust_force (config l)))
                      (- angle l))
  else Vector2.mk 0 (gravity (config l)).

(** The velocity after the integration step of [update], and the
    position it reaches before the horizontal clamp. *)
Definition integrated_velocity (dt : Q) (l : t) : Vector2.t :=
  Vector2.add (velocity l) (Vector2.scale (acceleration l) dt).

Definition integrated_position (dt : Q) (l : t) : Vector2.t :=
  Vector2.add (position l) (Vector2.scale (integrated_velocity dt l) dt).

End Physics.


(** The sum of a list of time steps. *)
Definition total (dts : list Q) : Q := fold_right Qplus 0 dts.

(** A particle that [Particle.draw] still paints. *)
Definition alive (p : Particle.t) : Prop := 0 < Particle.lifetime p.

(** A lander as the game keeps it: fuel within the tank, live particles
    only, horizontally inside the clamp, and above the crash line while it
    flies. *)
Definition in_play (l : t) : Prop :=
  0 <= fuel l <= fuel_capacity (config l) /\
  Forall alive (particles l) /\
  40 <= Vector2.x (position l) <= inject_Z (fst (screen_size (config l)) - 40) /\
  (status l = flying ->
   Vector2.y (position l) <= inject_Z (snd (screen_size (config l)) + 80)).

End Lander.

(** ** Running the model

    A stand-in for the pygame vector methods that stays inside [Q]: it is
    exact for rotations by multiples of 90 degrees and for vectors that lie
    on an axis, which is all the concrete runs below need. *)

Definition quarter_rotate (v : Vector2.t) (a : Q) : Vector2.t :=
  let r := Py.fmod a 360 in
  if Qeq_bool r 90 then Vector2.mk (- Vector2.y v) (Vector2.x v)
  else if Qeq_bool r 180 then Vector2.mk (- Vector2.x v) (- Vector2.y v)
  else if Qeq_bool r 270 then Vector2.mk (Vector2.y v) (- Vector2.x v)
  else v.

Definition axis_length (v : Vector2.t) : Q :=
  Qabs (Vector2.x v) + Qabs (Vector2.y v).

Definition axis_normalize (v : Vector2.t) : Vector2.t :=
  Vector2.scale v (/ axis_length v).

Definition axis_methods : Vector2.Methods := {|
  Vector2.rotate := quarter_rotate;
  Vector2.normalize := axis_normalize;
  Vector2.length := axis_length
|}.

(** A generator that always returns one half. *)
Definition half_rng : Random.Rng := fun _ => 1 # 2.

Definition no_keys : Keys := fun _ => false.

Definition thrust_keys : Keys :=
  fun k => match k with K_UP => true | _ => false end.

(** The pad of a game whose [random.randint] returned 480. *)
Definition centre_pad : LandingPad.t := LandingPad.init GameConfig_default 480.

(** The lander of [run_game] at spawn. *)
Definition spawn : Lander.t := Lander.init GameConfig_default (960 / 2, 140).

(** Ten frames that bring the lander from the spawn point down onto the
    pad: free fall, braking burns, and a last burn during which the lander
    box reaches the pad. *)
Definition approach : list (Keys * Q) :=
  [(no_keys, 3); (thrust_keys, 1 # 2); (no_keys, 1 # 2); (thrust_keys, 1 # 2);
   (no_keys, 1 # 2); (thrust_keys, 1 # 4); (no_keys, 1 # 4);
   (thrust_keys, 1 # 4); (thrust_keys, 1 # 8); (thrust_keys, 1 # 8)].

(** The lander at the end of [approach]: landed, with the engine flag still
    set and six live particles. *)
Definition touchdown : Lander.t :=
  fst (Lander.run axis_methods approach centre_pad half_rng spawn).

(** The lander inside the last frame of [approach], after [handle_input]:
    flying, engine on, six particles behind it. *)
Definition last_burn : Lander.t :=
  Lander.handle_input thrust_keys (1 # 8)
    (fst (Lander.run axis_methods (removelast approach) centre_pad
                     half_rng spawn)).

(** The same lander after [update] and before [check_landing]: still
    flying, its box on the pad. *)
Definition final_descent : Lander.t :=
  fst (Lander.update axis_methods (1 # 8) half_rng last_burn).

(** A lander next to the left edge of the screen, moving left. *)
Definition drifting : Lander.t :=
  Lander.set_velocity (Vector2.mk (-100) 0)
    (Lander.init GameConfig_default (50, 140)).

(** A lander created below the line at which [update] declares a crash. *)
Definition sunk : Lander.t := Lander.init GameConfig_default (480, 1000).

(** [GameConfig(screen_size=..., fuel_capacity=..., fuel_burn_rate=...)]:
    the dataclass with three fields given by keyword and the defaults for
    the others. *)
Definition GameConfig_with (size : Z * Z) (capacity burn_rate : Q)
    : GameConfig := {|
  screen_size := size;
  target_fps := 60;
  gravity := 36;
  thrust_force := 120;
  fuel_capacity := capacity;
  fuel_burn_rate := burn_rate;
  rotation_speed := 90;
  landing_pad_width := 160;
  landing_pad_height := 12;
  max_landing_speed := 42;
  max_horizontal_speed := 32;
  max_landing_angle := 12;
  star_count := 120;
  scanline_spacing := 4
|}.

(** The thrust key and the left key held together. *)
Definition thrust_left_keys : Keys :=
  fun k => match k with K_UP | K_LEFT => true | _ => false end.

(** The lander at spawn with the engine flag set, as [handle_input] leaves
    it when a thrust key is held. *)
Definition armed : Lander.t := Lander.set_thrusting true spawn.

(** The same lander under a configuration whose burn rate is negative. *)
Definition armed_leaking : Lander.t :=
  Lander.set_thrusting true
    (Lander.init (GameConfig_with (960, 720)%Z 100 (-22)) (960 / 2, 140)).

(** The lander of a configuration whose tank capacity is negative. *)
Definition hollow : Lander.t :=
  Lander.init (GameConfig_with (960, 720)%Z (-5) 22) (960 / 2, 140).

(** The lander at spawn on a screen that is 60 pixels wide. *)
Definition squeezed : Lander.t :=
  Lander.init (GameConfig_with (60, 720)%Z 100 22) (60 / 2, 140).

(** The vertical velocity that consecutive [update] calls without thrust
    compute: [gravity * dt] is added step by step. *)
Definition free_fall (pull : Q) (dts : list Q) (vy : Q) : Q :=
  fold_left (fun v dt => v + pull * dt) dts vy.

(** ** The heads-up display *)

Module Hud.

(** The banner texts of [draw_hud]. *)
Inductive Message :=
| Touchdown_Achieved   (* "Touchdown Achieved" *)
| Impact_Detected      (* "Impact Detected" *)
| Neon_Descent.        (* "Neon Descent" *)

(** [NEON_PALETTE] entries the banner uses. *)
Definition success : Color := (144, 238, 144)%Z.
Definition warning : Color := (255, 94, 0)%Z.
Definition hud_secondary : Color := (0, 255, 200)%Z.

(** The width of the filled part of the fuel bar,
    [int(bar_width * fuel_percentage)] with [bar_width = 600]; [None] is
    the [ZeroDivisionError] of [lander.fuel / config.fuel_capacity]. *)
Definition fuel_bar (l : Lander.t) (config : GameConfig) : option Z :=
  if Qeq_bool (fuel_capacity config) 0 then None
  else
    let fuel_percentage := Lander.fuel l / fuel_capacity config in
    Some (Py.int (600 * fuel_percentage)).

(** The banner text and its colour. *)
Definition message (l : Lander.t) : Message * Color :=
  match Lander.status l with
  | landed => (Touchdown_Achieved, success)
  | crashed => (Impact_Detected, warning)
  | flying => (Neon_Descent, hud_secondary)
  end.

(** Whether the banner is drawn this frame:
    [lander.status != "flying" or int(elapsed) % 2 == 0]. *)
Definition banner_visible (l : Lander.t) (elapsed : Q) : bool :=
  negb (Status_eqb (Lander.status l) flying)
  || (Py.int elapsed mod 2 =? 0)%Z.

End Hud.

(** ** The star field *)

Module Starfield.

(** A star: its position and its fall speed. *)
Definition Star := (Vector2.t * Q)%type.

(** One [surface.fill(color, rect)]. *)
Record Fill := { fill_color : Color; fill_rect : Z * Z * Z * Z }.

Fixpoint build_loop (n : nat) (width height : Z) (g : Random.Rng)
    (stars : list Star) : list Star * Random.Rng :=
  match n with
  | O => (stars, g)
  | S n' =>
      let (px, g) := Random.uniform 0 (inject_Z width) g in
      let (py, g) := Random.uniform 0 (inject_Z height) g in
      let (speed, g) := Random.uniform 5 20 g in
      build_loop n' width height g (stars ++ [(Vector2.mk px py, speed)])
  end.

(** [build_starfield(config)]; [range] of a negative count is empty. *)
Definition build_starfield (config : GameConfig) (g : Random.Rng)
    : list Star * Random.Rng :=
  let (width, height) := screen_size config in
  build_loop (Z.to_nat (star_count config)) width height g [].

(** The body of the loop of [draw_starfield] for one star: the star after
    the in-place update of its position, and the pixel block painted. *)
Definition draw_star (width height : Z) (dt : Q) (s : Star) (g : Random.Rng)
    : Star * Fill * Random.Rng :=
  let (position, speed) := s in
  let position := Vector2.mk (Vector2.x position)
                             (Vector2.y position + speed * dt) in
  let (position, g) :=
    if Py.ltb (inject_Z height) (Vector2.y position) then
      let position := Vector2.mk (Vector2.x position) 0 in
      let (nx, g) := Random.uniform 0 (inject_Z width) g in
      (Vector2.mk nx (Vector2.y position), g)
    else (position, g) in
  let color_value := Py.zmin 255 (Py.int (120 + speed * 2)) in
  ((position, speed),
   {| fill_color := (color_value, 0, color_value)%Z;
      fill_rect := (Py.int (Vector2.x position), Py.int (Vector2.y position),
                    2, 2)%Z |},
   g).

(** [draw_starfield(surface, stars, dt)] on a surface of the given size:
    the stars after the call and the blocks painted, in order. *)
Fixpoint draw_starfield (width height : Z) (stars : list Star) (dt : Q)
    (g : Random.Rng) : list Star * list Fill * Random.Rng :=
  match stars with
  | [] => ([], [], g)
  | s :: rest =>
      let '(s', f, g) := draw_star width height dt s g in
      let '(rest', fs, g) := draw_starfield width height rest dt g in
      (s' :: rest', f :: fs, g)
  end.

(** A star inside a surface of the given size. *)
Definition on_screen (width height : Z) (s : Star) : Prop :=
  0 <= Vector2.x (fst s) <= inject_Z width /\
  0 <= Vector2.y (fst s) <= inject_Z height.

End Starfield.

(** ** The thruster tone *)

Module Math.

(** [math.sin] and [math.pi]. *)
Record Functions := { sin : Q -> Q; pi : Q }.

End Math.

Module Sound.

(** The range of a signed 16-bit sample (type code ["h"]). *)
Definition fits_int16 (v : Z) : bool :=
  ((-32768 <=? v) && (v <=? 32767))%Z.

(** The loop of [create_thruster_sound] from sample [i] on, for [n] more
    samples; [None] is the [OverflowError] of [array.append]. *)
Fixpoint fill_waveform (m : Math.Functions) (n : nat) (i : Z)
    (waveform : list Z) : option (list Z) :=
  match n with
  | O => Some waveform
  | S n' =>
      let t := inject_Z i / 44100 in
      let value :=
        Py.int (32767 * 0.3 * Math.sin m (2 * Math.pi m * 220 * t)) in
      if fits_int16 value
      then fill_waveform m n' (i + 1) (waveform ++ [value])
      else None
  end.

(** [create_thruster_sound()]: the samples of the buffer handed to
    [pygame.mixer.Sound]. *)
Definition create_thruster_sound (m : Math.Functions) : option (list Z) :=
  let frequency := 44100%Z in
  let duration := 0.25 in
  let sample_count := Py.int (inject_Z frequency * duration) in
  fill_waveform m (Z.to_nat sample_count) 0 [].

End Sound.

(** ** The main loop of [run_game] *)

Module Game.

(** The events the loop distinguishes. *)
Inductive Event :=
| QUIT          (* event.type == pygame.QUIT *)
| KEYDOWN_r     (* a KEYDOWN event whose key is K_r *)
| OtherEvent.

(** What one pass of the loop reads from pygame: the milliseconds
    [clock.tick] returned, the pending events and the keyboard state. *)
Record Input := { dt_ms : Z; events : list Event; pressed : Keys }.

(** The values the following calls of [random.randint] return. *)
Definition Randints := nat -> Z.

Record State := {
  lander : Lander.t;
  landing_pad : LandingPad.t;
  starfield : list Starfield.Star;
  elapsed : Q;
  time_accumulator : Q;
  rng : Random.Rng;
  randints : Randints
}.

(** [config = GameConfig()] *)
Definition config : GameConfig := GameConfig_default.

(** [(config.screen_size[0] / 2, 140)] *)
Definition start_pos : Q * Q :=
  (inject_Z (fst (screen_size config)) / 2, 140).

(** The event loop: [None] when a QUIT event ends the process. *)
Fixpoint handle_events (evs : list Event) (l : Lander.t) (pad : LandingPad.t)
    (ints : Randints) : option (Lander.t * LandingPad.t * Randints) :=
  match evs with
  | [] => Some (l, pad, ints)
  | QUIT :: _ => None
  | KEYDOWN_r :: rest =>
      handle_events rest (Lander.reset config start_pos l)
                    (LandingPad.init config (ints O))
                    (fun n => ints (S n))
  | OtherEvent :: rest => handle_events rest l pad ints
  end.

Section Loop.

Variable vm : Vector2.Methods.

(** The state when the loop is entered. *)
Definition start (g : Random.Rng) (ints : Randints) : State :=
  let l := Lander.init config start_pos in
  let pad := LandingPad.init config (ints O) in
  let (stars, g) := Starfield.build_starfield config g in
  {| lander := l; landing_pad := pad; starfield := stars;
     elapsed := 0; time_accumulator := 0;
     rng := g; randints := fun n => ints (S n) |}.

(** One pass of [while True]; the thruster sound and the drawing calls
    that keep no state are left out. *)
Definition step (i : Input) (s : State) : option State :=
  let dt := inject_Z (dt_ms i) / 1000 in
  let elapsed := elapsed s + dt in
  let time_accumulator := time_accumulator s + dt in
  match handle_events (events i) (lander s) (landing_pad s) (randints s) with
  | None => None
  | Some (l, pad, ints) =>
      let (l, g) := Lander.frame vm (pressed i) dt pad (rng s) l in
      let pad := LandingPad.update dt pad in
      let (width, height) := screen_size config in
      let '(stars, _, g) :=
        Starfield.draw_starfield width height (starfield s) dt g in
      Some {| lander := l; landing_pad := pad; starfield := stars;
              elapsed := elapsed; time_accumulator := time_accumulator;
              rng := g; randints := ints |}
  end.

(** Consecutive passes; [None] once the process has exited. *)
Fixpoint play (inputs : list Input) (s : State) : option State :=
  match inputs with
  | [] => Some s
  | i :: rest =>
      match step i s with
      | None => None
      | Some s' => play rest s'
      end
  end.

End Loop.

(** The state of a running game as the loop keeps it: the lander in play
    under the default configuration, the 160 x 12 pad at height 642 with
    its left edge between 40 and 760, 120 stars on the 960 x 720 screen
    falling at speeds between 5 and 20, and the two clocks in step. *)
Definition healthy (s : State) : Prop :=
  Lander.config (lander s) = config /\
  Lander.in_play (lander s) /\
  (Rect.w (LandingPad.rect (landing_pad s)) = 160%Z /\
   Rect.h (LandingPad.rect (landing_pad s)) = 12%Z /\
   Rect.y (LandingPad.rect (landing_pad s)) = 642%Z /\
   (40 <= Rect.x (LandingPad.rect (landing_pad s)) <= 760)%Z) /\
  0 <= LandingPad.timer (landing_pad s) /\
  List.length (starfield s) = 120%nat /\
  Forall (Starfield.on_screen 960 720) (starfield s) /\
  Forall (fun v => 5 <= v <= 20) (map snd (starfield s)) /\
  elapsed s == time_accumulator s /\ 0 <= elapsed s.

(** The seconds of a frame, [dt_ms / 1000.0]. *)
Definition seconds (i : Input) : Q := inject_Z (dt_ms i) / 1000.

(** The number of presses of [r] among the events of a frame. *)
Definition is_reset (e : Event) : bool :=
  match e with KEYDOWN_r => true | _ => false end.

Definition resets (evs : list Event) : nat :=
  List.length (filter is_reset evs).

(** What pygame and [random] are taken to deliver: random values in the
    unit interval and pad centres within the bounds given to
    [random.randint]. *)
Definition fed (s : State) : Prop :=
  Random.unit (rng s) /\
  forall n, (LandingPad.x_low config <= randints s n
             <= LandingPad.x_high config)%Z.

End Game.

(** A sine stand-in that stays inside [Q]: a triangle wave of period
    [2 * pi] with [pi] taken as 22/7. *)
Definition triangle_math : Math.Functions := {|
  Math.sin := fun x =>
    let u := Py.fmod (x / (2 * (22 # 7))) 1 in
    if Qle_bool u (1 # 4) then 4 * u
    else if Qle_bool u (3 # 4) then 2 - 4 * u
    else 4 * u - 4;
  Math.pi := 22 # 7
|}.

(** A [randint] stream for pads in the middle of the screen. *)
Definition centre_pads : Game.Randints := fun _ => 480%Z.

(** ** The same methods in IEEE binary64

    CPython and pygame compute with binary64 doubles.  This module repeats
    [Particle] and the [Lander] methods with every arithmetic operation
    rounded as the machine rounds it, on Rocq's primitive floats, so that a
    run of the program can be replayed bit for bit.  The rational model
    above is the same code with the rounding left out; where a property
    holds of the one and not of the other, a run of this module shows it. *)

Module Binary64.

Definition float := PrimFloat.float.

(** *** Python builtins on floats *)

Module Py.

(** The double of an integer, as in [36.0] or in the comparison of an
    [int] with a [float]; exact for the integers below [2^53] in absolute
    value, which covers every integer of the game. *)
Definition of_int (z : Z) : float :=
  if (z <? 0)%Z
  then PrimFloat.opp (PrimFloat.of_uint63 (Uint63.of_Z (- z)))
  else PrimFloat.of_uint63 (Uint63.of_Z z).

(** The double of the decimal literal [n / d] (as [0.3] is [3 / 10]),
    and of a quotient of two integers such as [dt_ms / 1000.0]: the double
    nearest to the fraction. *)
Definition literal (n d : Z) : float := PrimFloat.div (of_int n) (of_int d).

(** The rational a finite double stands for. *)
Definition rational (x : float) : Q :=
  match FloatOps.Prim2SF x with
  | SpecFloat.S754_finite s m e =>
      let v := if (0 <=? e)%Z then inject_Z (Zpos m * 2 ^ e)
               else Zpos m # Z.to_pos (2 ^ (- e)) in
      if s then - v else v
  | _ => 0
  end.

Definition ltb (x y : float) : bool := PrimFloat.ltb x y.

Definition leb (x y : float) : bool := PrimFloat.leb x y.

(** [max(a, b)] and [min(a, b)], with the tie rule of [Py.max]. *)
Definition max (a b : float) : float := if ltb a b then b else a.

Definition min (a b : float) : float := if ltb b a then b else a.

Definition abs (x : float) : float := PrimFloat.abs x.

(** C's [fmod(x, y)]: the remainder of the truncated division, computed
    without rounding; it has the sign of [x]. *)
Definition c_fmod (x y : float) : float :=
  match FloatOps.Prim2SF x, FloatOps.Prim2SF y with
  | SpecFloat.S754_nan, _ | _, SpecFloat.S754_nan => PrimFloat.nan
  | SpecFloat.S754_infinity _, _ | _, SpecFloat.S754_zero _ => PrimFloat.nan
  | _, SpecFloat.S754_infinity _ => x
  | SpecFloat.S754_zero _, SpecFloat.S754_finite _ _ _ => x
  | SpecFloat.S754_finite sx mx ex, SpecFloat.S754_finite _ my ey =>
      let e := Z.min ex ey in
      match ((Zpos mx * 2 ^ (ex - e)) mod (Zpos my * 2 ^ (ey - e)))%Z with
      | Zpos r => FloatOps.SF2Prim (SpecFloat.S754_finite sx r e)
      | _ => if sx then PrimFloat.neg_zero else PrimFloat.zero
      end
  end.

(** [x % m] on floats (CPython's [float_rem]): [fmod], moved by one [m]
    when its sign is not that of [m]; a zero remainder takes the sign of
    [m].  ([m = 0] raises; the game divides by 360 only.) *)
Definition fmod (x m : float) : float :=
  let r := c_fmod x m in
  if PrimFloat.eqb r PrimFloat.zero
  then (if ltb m PrimFloat.zero then PrimFloat.neg_zero else PrimFloat.zero)
  else if xorb (ltb m PrimFloat.zero) (ltb r PrimFloat.zero)
       then PrimFloat.add r m
       else r.

(** [int(x)], and the conversion pygame applies to a float coordinate
    handed to a [Rect]: truncation toward zero. *)
Definition int (x : float) : Z :=
  match FloatOps.Prim2SF x with
  | SpecFloat.S754_finite s m e =>
      let n := if (0 <=? e)%Z then (Zpos m * 2 ^ e)%Z
               else Z.shiftr (Zpos m) (- e) in
      if s then (- n)%Z else n
  | _ => 0%Z
  end.

End Py.

(** *** The [random] module *)

Module Random.

Definition Rng := nat -> float.

Definition next (g : Rng) : Rng := fun n => g (S n).

(** [random.uniform(a, b)] is [a + (b - a) * random()]. *)
Definition uniform (a b : float) (g : Rng) : float * Rng :=
  (PrimFloat.add a (PrimFloat.mul (PrimFloat.sub b a) (g O)), next g).

End Random.

(** *** pygame.Vector2: a pair of doubles *)

Module Vector2.

Record t := mk { x : float; y : float }.

(** [v + w] *)
Definition add (v w : t) : t :=
  mk (PrimFloat.add (x v) (x w)) (PrimFloat.add (y v) (y w)).

(** [v * k] *)
Definition scale (v : t) (k : float) : t :=
  mk (PrimFloat.mul (x v) k) (PrimFloat.mul (y v) k).

(** [v.length()]: the square root of the scalar product. *)
Definition length (v : t) : float :=
  PrimFloat.sqrt (PrimFloat.add (PrimFloat.mul (x v) (x v))
                                (PrimFloat.mul (y v) (y v))).

(** [v.normalize()]: both coordinates divided by the length. *)
Definition normalize (v : t) : t :=
  mk (PrimFloat.div (x v) (length v)) (PrimFloat.div (y v) (length v)).

End Vector2.

(** *** Gameplay tuning *)

Record GameConfig := {
  screen_size : Z * Z;
  target_fps : Z;
  gravity : float;
  thrust_force : float;
  fuel_capacity : float;
  fuel_burn_rate : float;
  rotation_speed : float;
  landing_pad_width : Z;
  landing_pad_height : Z;
  max_landing_speed : float;
  max_horizontal_speed : float;
  max_landing_angle : float;
  star_count : Z;
  scanline_spacing : Z
}.

(** [GameConfig()] *)
Definition GameConfig_default : GameConfig := {|
  screen_size := (960, 720)%Z;
  target_fps := 60;
  gravity := Py.of_int 36;
  thrust_force := Py.of_int 120;
  fuel_capacity := Py.of_int 100;
  fuel_burn_rate := Py.of_int 22;
  rotation_speed := Py.of_int 90;
  landing_pad_width := 160;
  landing_pad_height := 12;
  max_landing_speed := Py.of_int 42;
  max_horizontal_speed := Py.of_int 32;
  max_landing_angle := Py.of_int 12;
  star_count := 120;
  scanline_spacing := 4
|}.

(** *** Particle *)

Module Particle.

Record t := mk {
  position : Vector2.t;
  velocity : Vector2.t;
  lifetime : float;
  color : Color;
  size : float
}.

Definition update (dt : float) (p : t) : t * bool :=
  let position' := Vector2.add (position p) (Vector2.scale (velocity p) dt) in
  let lifetime' := PrimFloat.sub (lifetime p) dt in
  let size' := Py.max (Py.of_int 0)
                      (PrimFloat.sub (size p) (PrimFloat.mul dt (Py.of_int 6))) in
  (mk position' (velocity p) lifetime' (color p) size',
   Py.ltb (Py.of_int 0) lifetime').

End Particle.

(** *** Lander *)

Module Lander.

Record t := mk {
  config : GameConfig;
  position : Vector2.t;
  velocity : Vector2.t;
  angle : float;
  fuel : float;
  thrusting : bool;
  particles : list Particle.t;
  status : Status;
  status_timer : float
}.

Definition set_position (v : Vector2.t) (l : t) : t :=
  mk (config l) v (velocity l) (angle l) (fuel l) (thrusting l)
     (particles l) (status l) (status_timer l).
Definition set_velocity (v : Vector2.t) (l : t) : t :=
  mk (config l) (position l) v (angle l) (fuel l) (thrusting l)
     (particles l) (status l) (status_timer l).
Definition set_angle (a : float) (l : t) : t :=
  mk (config l) (position l) (velocity l) a (fuel l) (thrusting l)
     (particles l) (status l) (status_timer l).
Definition set_fuel (f : float) (l : t) : t :=
  mk (config l) (position l) (velocity l) (angle l) f (thrusting l)
     (particles l) (status l) (status_timer l).
Definition set_thrusting (b : bool) (l : t) : t :=
  mk (config l) (position l) (velocity l) (angle l) (fuel l) b
     (particles l) (status l) (status_timer l).
Definition set_particles (ps : list Particle.t) (l : t) : t :=
  mk (config l) (position l) (velocity l) (angle l) (fuel l) (thrusting l)
     ps (status l) (status_timer l).
Definition set_status (s : Status) (l : t) : t :=
  mk (config l) (position l) (velocity l) (angle l) (fuel l) (thrusting l)
     (particles l) s (status_timer l).
Definition set_status_timer (q : float) (l : t) : t :=
  mk (config l) (position l) (velocity l) (angle l) (fuel l) (thrusting l)
     (particles l) (status l) q.

(** [Lander(config, start_pos)] *)
Definition init (config : GameConfig) (start_pos : float * float) : t :=
  mk config (Vector2.mk (fst start_pos) (snd start_pos))
     (Vector2.mk (Py.of_int 0) (Py.of_int 0))
     (Py.of_int 0) (fuel_capacity config) false [] flying (Py.of_int 0).

Definition handle_input (keys : Keys) (dt : float) (l : t) : t :=
  let l := set_thrusting false l in
  if negb (Status_eqb (status l) flying) then l
  else
    let l := if keys K_LEFT || keys K_a
             then set_angle (PrimFloat.add (angle l)
                               (PrimFloat.mul (rotation_speed (config l)) dt)) l
             else l in
    let l := if keys K_RIGHT || keys K_d
             then set_angle (PrimFloat.sub (angle l)
                               (PrimFloat.mul (rotation_speed (config l)) dt)) l
             else l in
    if (keys K_UP || keys K_w || keys K_SPACE) && Py.ltb (Py.of_int 0) (fuel l)
    then set_thrusting true l
    else l.

Fixpoint update_all (dt : float) (ps : list Particle.t) : list Particle.t :=
  match ps with
  | [] => []
  | p :: ps' =>
      let (p', alive) := Particle.update dt p in
      if alive then p' :: update_all dt ps' else update_all dt ps'
  end.

Definition update_particles (dt : float) (l : t) : t :=
  set_particles (update_all dt (particles l)) l.

(** [abs((self.angle + 180) % 360 - 180)]: the sum, the remainder and the
    difference are each rounded. *)
Definition angle_delta (a : float) : float :=
  Py.abs (PrimFloat.sub (Py.fmod (PrimFloat.add a (Py.of_int 180))
                                 (Py.of_int 360))
                        (Py.of_int 180)).

Definition lander_rect (l : t) : Rect.t :=
  Rect.set_center (Rect.mk 0 0 42 42)
    (Py.int (Vector2.x (position l))) (Py.int (Vector2.y (position l))).

Definition touches_pad (l : t) (pad : LandingPad.t) : bool :=
  (Rect.top (LandingPad.rect pad) <=? Rect.bottom (lander_rect l))%Z
  && Rect.colliderect (lander_rect l) (Rect.inflate (LandingPad.rect pad) 40 12).

Definition check_landing (pad : LandingPad.t) (l : t) : t :=
  if negb (Status_eqb (status l) flying) then l
  else if touches_pad l pad then
    let vertical_speed := Py.abs (Vector2.y (velocity l)) in
    let horizontal_speed := Py.abs (Vector2.x (velocity l)) in
    let l :=
      if Py.leb vertical_speed (max_landing_speed (config l))
         && Py.leb horizontal_speed (max_horizontal_speed (config l))
         && Py.leb (angle_delta (angle l)) (max_landing_angle (config l))
      then set_status landed l
      else set_status crashed l in
    set_status_timer (Py.of_int 0) l
  else l.

Section Physics.

(** [Vector2.rotate], in degrees. *)
Variable rotate : Vector2.t -> float -> Vector2.t.

Definition emit_one (base_position thrust_vector : Vector2.t)
    (g : Random.Rng) : Particle.t * Random.Rng :=
  let direction :=
    if negb (PrimFloat.eqb (Vector2.length thrust_vector) (Py.of_int 0))
    then Vector2.normalize thrust_vector
    else Vector2.mk (Py.of_int 0) (Py.of_int 1) in
  let (spread, g) := Random.uniform (Py.of_int (-20)) (Py.of_int 20) g in
  let (speed, g) := Random.uniform (Py.of_int 60) (Py.of_int 120) g in
  let velocity :=
    Vector2.scale (Vector2.scale (rotate direction spread) speed)
                  (PrimFloat.opp (Py.literal 65 100)) in
  let (jx, g) := Random.uniform (Py.of_int (-10)) (Py.of_int 10) g in
  let (jy, g) := Random.uniform (Py.of_int (-10)) (Py.of_int 10) g in
  let velocity := Vector2.add velocity (Vector2.mk jx jy) in
  let (lifetime, g) := Random.uniform (Py.literal 3 10) (Py.literal 6 10) g in
  let (size, g) := Random.uniform (Py.of_int 2) (Py.of_int 4) g in
  (Particle.mk base_position velocity lifetime thruster_glow size, g).

Fixpoint emit_loop (n : nat) (base_position thrust_vector : Vector2.t)
    (g : Random.Rng) (ps : list Particle.t) : list Particle.t * Random.Rng :=
  match n with
  | O => (ps, g)
  | S n' =>
      let (p, g) := emit_one base_position thrust_vector g in
      emit_loop n' base_position thrust_vector g (ps ++ [p])
  end.

Definition emit_thruster_particles (thrust_vector : Vector2.t)
    (g : Random.Rng) (l : t) : t * Random.Rng :=
  let base_position :=
    Vector2.add (position l)
                (rotate (Vector2.mk (Py.of_int 0) (Py.of_int 20))
                        (PrimFloat.opp (angle l))) in
  let (ps, g) := emit_loop 3 base_position thrust_vector g (particles l) in
  (set_particles ps l, g).

Definition update (dt : float) (g : Random.Rng) (l : t) : t * Random.Rng :=
  if negb (Status_eqb (status l) flying)
  then (set_status_timer (PrimFloat.add (status_timer l) dt) l, g)
  else
    let gravity_v := Vector2.mk (Py.of_int 0) (gravity (config l)) in
    let acceleration := gravity_v in
    let '(acceleration, l, g) :=
      if thrusting l && Py.ltb (Py.of_int 0) (fuel l) then
        let thrust_vector :=
          rotate (Vector2.mk (Py.of_int 0)
                             (PrimFloat.opp (thrust_force (config l))))
                 (PrimFloat.opp (angle l)) in
        let acceleration := Vector2.add acceleration thrust_vector in
        let l := set_fuel
                   (Py.max (Py.of_int 0)
                      (PrimFloat.sub (fuel l)
                         (PrimFloat.mul (fuel_burn_rate (config l)) dt))) l in
        let (l, g) := emit_thruster_particles thrust_vector g l in
        (acceleration, l, g)
      else (acceleration, set_thrusting false l, g) in
    let l := set_velocity (Vector2.add (velocity l) (Vector2.scale acceleration dt)) l in
    let l := set_position (Vector2.add (position l) (Vector2.scale (velocity l) dt)) l in
    let (width, height) := screen_size (config l) in
    let l := set_position
               (Vector2.mk (Py.max (Py.of_int 40)
                                   (Py.min (Py.of_int (width - 40))
                                           (Vector2.x (position l))))
                           (Vector2.y (position l))) l in
    let l := if Py.ltb (Py.of_int (height + 80)) (Vector2.y (position l))
             then set_status crashed l
             else l in
    (update_particles dt l, g).

(** Consecutive [handle_input]; [update] pairs under one keyboard
    state. *)
Fixpoint steer (keys : Keys) (dts : list float) (g : Random.Rng) (l : t)
    : t * Random.Rng :=
  match dts with
  | [] => (l, g)
  | dt :: rest =>
      let (l, g) := update dt g (handle_input keys dt l) in
      steer keys rest g l
  end.

End Physics.

End Lander.

(** A stand-in for [Vector2.rotate] that, like pygame, returns the
    vector itself for a rotation by zero degrees and permutes the
    coordinates for the other multiples of 90. *)
Definition quarter_rotate (v : Vector2.t) (a : float) : Vector2.t :=
  let r := Py.fmod a (Py.of_int 360) in
  if PrimFloat.eqb r (Py.of_int 90)
  then Vector2.mk (PrimFloat.opp (Vector2.y v)) (Vector2.x v)
  else if PrimFloat.eqb r (Py.of_int 180)
  then Vector2.mk (PrimFloat.opp (Vector2.x v)) (PrimFloat.opp (Vector2.y v))
  else if PrimFloat.eqb r (Py.of_int 270)
  then Vector2.mk (Vector2.y v) (PrimFloat.opp (Vector2.x v))
  else v.

(** A generator that always returns one half. *)
Definition half_rng : Random.Rng := fun _ => Py.literal 1 2.

(** The lander of [run_game] at spawn. *)
Definition spawn : Lander.t :=
  Lander.init GameConfig_default
    (PrimFloat.div (Py.of_int 960) (Py.of_int 2), Py.of_int 140).

(** The [dt] of [run_game] for frames of the given lengths in
    milliseconds: [dt_ms / 1000.0]. *)
Definition frame_times (dt_ms : list Z) : list float :=
  map (fun ms => Py.literal ms 1000) dt_ms.

(** The double that follows 12; Python prints it as
    [12.000000000000002]. *)
Definition just_over_12 : float := PrimFloat.next_up (Py.of_int 12).

(** A lander at rest with its box on the pad [centre_pad], tilted by
    [just_over_12] degrees. *)
Definition tilted : Lander.t :=
  Lander.set_angle just_over_12
    (Lander.init GameConfig_default (Py.of_int 480, Py.of_int 621)).

End Binary64.

(** The lander [Binary64.tilted], read in the rational model. *)
Definition tilted : Lander.t :=
  Lander.set_angle (Binary64.Py.rational Binary64.just_over_12)
    (Lander.init GameConfig_default (480, 621)).


(** * Properties *)

(** ** Comparisons and the Python builtins *)

Lemma Status_eqb_eq (s1 s2 : Status) : Status_eqb s1 s2 = true <-> s1 = s2.
Proof. destruct s1, s2; simpl; split; congruence. Qed.

Lemma not_flying_guard (s : Status) :
  s <> flying -> negb (Status_eqb s flying) = true.
Proof. destruct s; simpl; congruence. Qed.

Lemma flying_guard (s : Status) :
  s = flying -> negb (Status_eqb s flying) = false.
Proof. intros ->; reflexivity. Qed.

Lemma ltb_lt (x y : Q) : Py.ltb x y = true <-> x < y.
Proof.
  unfold Py.ltb. rewrite negb_true_iff.
  destruct (Qle_bool y x) eqn:E.
  - apply Qle_bool_iff in E. split; [discriminate | intros H; exfalso; lra].
  - split; [intros _ | reflexivity].
    apply Qnot_le_lt. intros H. apply Qle_bool_iff in H. congruence.
Qed.

Lemma ltb_ge (x y : Q) : Py.ltb x y = false <-> y <= x.
Proof.
  unfold Py.ltb. rewrite negb_false_iff. apply Qle_bool_iff.
Qed.

Lemma py_max_Qmax (a b : Q) : Py.max a b == Qmax a b.
Proof.
  unfold Py.max. destruct (Py.ltb a b) eqn:E.
  - apply ltb_lt in E. symmetry. apply Q.max_r. lra.
  - apply ltb_ge in E. symmetry. apply Q.max_l. exact E.
Qed.

Lemma py_max_lower (a b : Q) : a <= Py.max a b.
Proof.
  unfold Py.max. destruct (Py.ltb a b) eqn:E.
  - apply ltb_lt in E. lra.
  - lra.
Qed.

Lemma py_max_upper (a b c : Q) : a <= c -> b <= c -> Py.max a b <= c.
Proof. unfold Py.max. destruct (Py.ltb a b); auto. Qed.

Lemma py_min_upper (a b : Q) : Py.min a b <= a.
Proof.
  unfold Py.min. destruct (Py.ltb b a) eqn:E.
  - apply ltb_lt in E. lra.
  - lra.
Qed.

Module LanderFacts.
Import Lander.

(** *** What each method does to a lander that is not flying *)

Lemma handle_input_grounded (keys : Keys) (dt : Q) (l : t) :
  status l <> flying -> handle_input keys dt l = set_thrusting false l.
Proof.
  intros H. unfold handle_input.
  change (status (set_thrusting false l)) with (status l).
  now rewrite (not_flying_guard _ H).
Qed.

Lemma update_grounded vm (dt : Q) (g : Random.Rng) (l : t) :
  status l <> flying ->
  update vm dt g l = (set_status_timer (status_timer l + dt) l, g).
Proof. intros H. unfold update. now rewrite (not_flying_guard _ H). Qed.

Lemma check_landing_grounded (pad : LandingPad.t) (l : t) :
  status l <> flying -> check_landing pad l = l.
Proof. intros H. unfold check_landing. now rewrite (not_flying_guard _ H). Qed.

Lemma frame_grounded vm keys dt pad g (l : t) :
  status l <> flying ->
  frame vm keys dt pad g l =
  (set_status_timer (status_timer l + dt) (set_thrusting false l), g).
Proof.
  intros H. unfold frame.
  rewrite (handle_input_grounded _ _ _ H).
  rewrite update_grounded by exact H.
  now rewrite check_landing_grounded by exact H.
Qed.

(** A grounded lander stays as it is through any number of frames. *)
Lemma run_grounded vm frames pad : forall g (l : t),
  status l <> flying ->
  let l' := fst (run vm frames pad g l) in
  status l' = status l /\ position l' = position l /\
  velocity l' = velocity l /\ angle l' = angle l /\ fuel l' = fuel l /\
  particles l' = particles l /\ config l' = config l /\
  status_timer l' = fold_left Qplus (map snd frames) (status_timer l).
Proof.
  induction frames as [|[keys dt] rest IH]; intros g l H; simpl.
  - repeat split.
  - rewrite frame_grounded by exact H.
    specialize (IH g (set_status_timer (status_timer l + dt)
                        (set_thrusting false l)) H).
    simpl in IH. exact IH.
Qed.

Lemma updates_grounded vm dts : forall g (l : t),
  status l <> flying ->
  let l' := fst (updates vm dts g l) in
  status l' = status l /\
  status_timer l' = fold_left Qplus dts (status_timer l).
Proof.
  induction dts as [|dt rest IH]; intros g l H; simpl.
  - split; reflexivity.
  - rewrite update_grounded by exact H.
    exact (IH g (set_status_timer (status_timer l + dt) l) H).
Qed.

Lemma fold_left_total (dts : list Q) : forall a,
  fold_left Qplus dts a == a + total dts.
Proof.
  induction dts as [|dt rest IH]; intros a; simpl.
  - ring.
  - rewrite IH. ring.
Qed.

(** The frames of [approach] keep the lander flying until the last one,
    which lands it at 6 pixels per second with the engine flag set. *)
Lemma approach_lands :
  Forall (fun n => status (fst (run axis_methods (firstn n approach)
                                    centre_pad half_rng spawn)) = flying)
         (seq 0 10) /\
  status touchdown = landed /\ thrusting touchdown = true /\
  Vector2.y (position touchdown) == 621.3125 /\
  Vector2.y (velocity touchdown) == 6 /\
  map (fun p => Qred (Particle.lifetime p)) (particles touchdown)
    = [1 # 5; 1 # 5; 1 # 5; 13 # 40; 13 # 40; 13 # 40].
Proof.
  split.
  - cbn [seq]. repeat (constructor; [vm_compute; reflexivity|]). constructor.
  - repeat split; vm_compute; reflexivity.
Qed.

End LanderFacts.

(** ** The claims about the status state machine *)

Module StatusMachine.
Import Lander LanderFacts.

(** C1.  A lander that is not flying stays in its status: [update] only
    advances [status_timer], [check_landing] returns the lander as it is,
    and through any sequence of frames of the main loop the status,
    position, velocity and angle (and fuel, particles, configuration) keep
    their values while [status_timer] accumulates the [dt] of each frame.
    Hence a status can only change while it is [flying], that is, to
    [landed] or [crashed]; only [reset] brings back [flying]. *)
Theorem grounded_lander_is_frozen vm (frames : list (Keys * Q))
    (pad : LandingPad.t) (g : Random.Rng) (dt : Q) (l : t) :
  status l <> flying ->
  update vm dt g l = (set_status_timer (status_timer l + dt) l, g) /\
  check_landing pad l = l /\
  (forall cfg start_pos, status (reset cfg start_pos l) = flying) /\
  let l' := fst (run vm frames pad g l) in
  status l' = status l /\ position l' = position l /\
  velocity l' = velocity l /\ angle l' = angle l /\ fuel l' = fuel l /\
  particles l' = particles l /\ config l' = config l /\
  status_timer l' = fold_left Qplus (map snd frames) (status_timer l).
Proof.
  intros H. split; [|split; [|split]].
  - now apply update_grounded.
  - now apply check_landing_grounded.
  - reflexivity.
  - now apply run_grounded.
Qed.

Lemma grounded_lander_is_frozen_witness :
  status touchdown <> flying /\
  status_timer
    (fst (run axis_methods [(thrust_keys, 1 # 60); (no_keys, 1 # 50)]
              centre_pad half_rng touchdown))
  = fold_left Qplus [1 # 60; 1 # 50] (status_timer touchdown).
Proof.
  assert (H : status touchdown <> flying) by (vm_compute; discriminate).
  split; [exact H|].
  exact (proj2 (proj2 (proj2 (proj2 (proj2 (proj2 (proj2 (proj2 (proj2 (proj2
    (grounded_lander_is_frozen axis_methods
       [(thrust_keys, 1 # 60); (no_keys, 1 # 50)]
       centre_pad half_rng 0 touchdown H))))))))))).
Defined.

(** C5, the claim as stated fails: [handle_input] clears the thrusting
    flag before it looks at the status.  The lander that touched down
    with its engine on still has the flag set, and the next
    [handle_input] changes it. *)
Lemma handle_input_changes_landed_lander :
  status touchdown = landed /\ thrusting touchdown = true /\
  thrusting (handle_input no_keys (1 # 60) touchdown) = false /\
  handle_input no_keys (1 # 60) touchdown <> touchdown.
Proof.
  assert (Hs : status touchdown = landed) by (vm_compute; reflexivity).
  assert (Ht : thrusting touchdown = true) by (vm_compute; reflexivity).
  assert (Hh : thrusting (handle_input no_keys (1 # 60) touchdown) = false).
  { rewrite handle_input_grounded by (rewrite Hs; discriminate). reflexivity. }
  repeat split; try assumption.
  intros E. rewrite E in Hh. congruence.
Qed.

(** C5, amended.  On a lander that is landed or crashed, [handle_input]
    clears the thrusting flag and changes nothing else, whatever the keys
    and [dt]. *)
Theorem handle_input_grounded_clears_thrusting (keys : Keys) (dt : Q) (l : t) :
  status l <> flying ->
  handle_input keys dt l = set_thrusting false l /\
  config (handle_input keys dt l) = config l /\
  position (handle_input keys dt l) = position l /\
  velocity (handle_input keys dt l) = velocity l /\
  angle (handle_input keys dt l) = angle l /\
  fuel (handle_input keys dt l) = fuel l /\
  particles (handle_input keys dt l) = particles l /\
  status (handle_input keys dt l) = status l /\
  status_timer (handle_input keys dt l) = status_timer l /\
  thrusting (handle_input keys dt l) = false.
Proof.
  intros H. rewrite (handle_input_grounded keys dt l H). repeat split.
Qed.

Lemma handle_input_grounded_clears_thrusting_witness :
  status touchdown <> flying /\
  handle_input thrust_keys (1 # 60) touchdown = set_thrusting false touchdown.
Proof.
  assert (H : status touchdown <> flying) by (vm_compute; discriminate).
  split; [exact H|].
  exact (proj1 (handle_input_grounded_clears_thrusting
                  thrust_keys (1 # 60) touchdown H)).
Defined.

(** C9.  [check_landing] writes only [status] and [status_timer]: the
    configuration, position, velocity, angle, fuel, thrusting flag and
    particles of the result are those of the argument, for every lander
    and every pad. *)
Theorem check_landing_frame (pad : LandingPad.t) (l : t) :
  config (check_landing pad l) = config l /\
  position (check_landing pad l) = position l /\
  velocity (check_landing pad l) = velocity l /\
  angle (check_landing pad l) = angle l /\
  fuel (check_landing pad l) = fuel l /\
  thrusting (check_landing pad l) = thrusting l /\
  particles (check_landing pad l) = particles l.
Proof.
  unfold check_landing.
  destruct (negb (Status_eqb (status l) flying)); [repeat split|].
  destruct (touches_pad l pad); [|repeat split].
  destruct (_ && _); repeat split.
Qed.

(** C10.  When [check_landing] takes a flying lander to a terminal
    status it leaves [status_timer] at 0; from there on the timer is the
    accumulated [dt] of the [update] calls that follow, alone or inside
    frames of the main loop. *)
Theorem check_landing_restarts_timer vm (pad : LandingPad.t) (l : t)
    (dts : list Q) (frames : list (Keys * Q)) (g : Random.Rng) :
  status l = flying ->
  status (check_landing pad l) <> flying ->
  let l0 := check_landing pad l in
  status_timer l0 = 0 /\
  status_timer (fst (updates vm dts g l0)) = fold_left Qplus dts 0 /\
  status_timer (fst (updates vm dts g l0)) == total dts /\
  status_timer (fst (run vm frames pad g l0)) == total (map snd frames).
Proof.
  intros Hf Ht l0.
  assert (H0 : status_timer l0 = 0).
  { subst l0. revert Ht. unfold check_landing.
    rewrite (flying_guard _ Hf).
    destruct (touches_pad l pad); [|intros C; contradiction].
    intros _. destruct (_ && _); reflexivity. }
  destruct (updates_grounded vm dts g l0 Ht) as [_ Hu].
  destruct (run_grounded vm frames pad g l0 Ht)
    as (_ & _ & _ & _ & _ & _ & _ & Hr).
  rewrite H0 in Hu, Hr.
  split; [exact H0|]. split; [exact Hu|]. split.
  - rewrite Hu, fold_left_total. ring.
  - rewrite Hr, fold_left_total. ring.
Qed.

Lemma check_landing_restarts_timer_witness :
  status final_descent = flying /\
  status (check_landing centre_pad final_descent) <> flying /\
  status_timer (fst (updates axis_methods [1 # 60; 1 # 60] half_rng
                       (check_landing centre_pad final_descent))) == 1 # 30.
Proof.
  assert (Hf : status final_descent = flying) by (vm_compute; reflexivity).
  assert (Ht : status (check_landing centre_pad final_descent) <> flying)
    by (vm_compute; discriminate).
  split; [exact Hf|]. split; [exact Ht|].
  etransitivity.
  - exact (proj1 (proj2 (proj2 (check_landing_restarts_timer axis_methods
             centre_pad final_descent [1 # 60; 1 # 60] [] half_rng Hf Ht)))).
  - vm_compute. reflexivity.
Defined.

End StatusMachine.

(** ** The landing evaluation *)

Module Landing.
Import Lander LanderFacts.




Lemma check_landing_keeps_tank (pad : LandingPad.t) (l : t) :
  config (check_landing pad l) = config l /\
  fuel (check_landing pad l) = fuel l.
Proof.
  unfold check_landing.
  destruct (negb (Status_eqb (status l) flying)); [split; reflexivity|].
  destruct (touches_pad l pad); [|split; reflexivity].
  destruct (_ && _); split; reflexivity.
Qed.





(** C6.  An angle of 350 degrees is treated as -10 degrees: both have
    the angle distance 10, which is within the default limit of 12, and
    for every lander and pad [check_landing] gives the lander turned to
    350 degrees and the same lander turned to -10 degrees the same status
    (and the same timer); the two results differ in the angle only. *)
Theorem angle_350_as_minus_10 (pad : LandingPad.t) (l : t) :
  angle_delta 350 == 10 /\ angle_delta (-10) == 10 /\
  angle_delta 350 <= max_landing_angle GameConfig_default /\
  status (check_landing pad (set_angle 350 l)) =
  status (check_landing pad (set_angle (-10) l)) /\
  check_landing pad (set_angle 350 l) =
  set_angle 350 (check_landing pad (set_angle (-10) l)).
Proof.
  assert (E1 : angle_delta 350 = 10) by (vm_compute; reflexivity).
  assert (E2 : angle_delta (-10) = 10) by (vm_compute; reflexivity).
  split; [rewrite E1; reflexivity|].
  split; [rewrite E2; reflexivity|].
  split; [rewrite E1; vm_compute; discriminate|].
  assert (H : check_landing pad (set_angle 350 l) =
              set_angle 350 (check_landing pad (set_angle (-10) l))).
  { unfold check_landing.
    change (status (set_angle 350 l)) with (status l).
    change (status (set_angle (-10) l)) with (status l).
    change (touches_pad (set_angle 350 l) pad) with (touches_pad l pad).
    change (touches_pad (set_angle (-10) l) pad) with (touches_pad l pad).
    destruct (negb (Status_eqb (status l) flying)); [reflexivity|].
    destruct (touches_pad l pad); [|reflexivity].
    cbn [angle velocity config set_angle]. rewrite E1, E2.
    destruct (_ && _); reflexivity. }
  split; [|exact H].
  rewrite H. reflexivity.
Qed.

End Landing.

(** ** One [update] of a flying lander *)

Module Flight.
Import Lander LanderFacts.

(** Reduce field reads of field writes. *)
Ltac fields :=
  cbn [fst snd config position velocity angle fuel thrusting particles
       status status_timer set_position set_velocity set_angle set_fuel
       set_thrusting set_particles set_status set_status_timer
       update_particles] in *.

Ltac vectors :=
  cbn [Vector2.x Vector2.y Vector2.add Vector2.scale] in *.

Lemma emit_loop_app vm (n : nat) (b tv : Vector2.t) :
  forall (g : Random.Rng) (ps : list Particle.t),
  emit_loop vm n b tv g ps =
  (ps ++ fst (emit_loop vm n b tv g []), snd (emit_loop vm n b tv g [])).
Proof.
  induction n as [|n IH]; intros g ps; cbn [emit_loop fst snd].
  - now rewrite app_nil_r.
  - destruct (emit_one vm b tv g) as [p g'].
    rewrite (IH g' (ps ++ [p])), (IH g' ([] ++ [p])). cbn [fst snd app].
    now rewrite <- app_assoc.
Qed.

Lemma emit_loop_length vm (n : nat) (b tv : Vector2.t) :
  forall (g : Random.Rng),
  List.length (fst (emit_loop vm n b tv g [])) = n.
Proof.
  induction n as [|n IH]; intros g; cbn [emit_loop fst].
  - reflexivity.
  - destruct (emit_one vm b tv g) as [p g'].
    rewrite emit_loop_app. cbn [fst app List.length]. now rewrite IH.
Qed.

(** Three particles while the engine burns, none otherwise. *)
Lemma spawned_length vm (g : Random.Rng) (l : t) :
  List.length (spawned vm g l) =
  if thrusting l && Py.ltb 0 (fuel l) then 3%nat else 0%nat.
Proof.
  unfold spawned. destruct (thrusting l && Py.ltb 0 (fuel l)).
  - apply emit_loop_length.
  - reflexivity.
Qed.

(** Every field of a flying lander after one [update]. *)
Lemma update_flying vm (dt : Q) (g : Random.Rng) (l : t) :
  status l = flying ->
  let l' := fst (update vm dt g l) in
  let p := integrated_position vm dt l in
  config l' = config l /\
  velocity l' = integrated_velocity vm dt l /\
  position l' =
    Vector2.mk (Py.max 40 (Py.min (inject_Z (fst (screen_size (config l)) - 40))
                                  (Vector2.x p)))
               (Vector2.y p) /\
  angle l' = angle l /\
  fuel l' = (if thrusting l && Py.ltb 0 (fuel l)
             then Py.max 0 (fuel l - fuel_burn_rate (config l) * dt)
             else fuel l) /\
  thrusting l' = thrusting l && Py.ltb 0 (fuel l) /\
  particles l' = update_all dt (particles l ++ spawned vm g l) /\
  status l' = (if Py.ltb (inject_Z (snd (screen_size (config l)) + 80))
                         (Vector2.y p)
               then crashed else flying) /\
  status_timer l' = status_timer l.
Proof.
  intros Hf l' p. subst l' p.
destruct l as [cfg pos vel ang fu th ps st stt]. cbn [status] in Hf. subst st.
unfold update, integrated_position, integrated_velocity,
  acceleration, spawned, emit_thruster_particles.
fields. cbn [Status_eqb negb].
destruct th; cbn [andb]; [destruct (Py.ltb 0 fu) eqn:Eb|];
  [rewrite (emit_loop_app vm 3 _ _ g ps) | rewrite app_nil_r ..];
  fields;
  destruct (screen_size cfg) as [width height];
  fields; vectors;
  match goal with
  | |- context [Py.ltb (inject_Z (height + 80)) ?y] =>
      destruct (Py.ltb (inject_Z (height + 80)) y)
  end; fields; repeat split.
Qed.

(** What [handle_input] leaves alone, whatever the status. *)
Lemma handle_input_fields (keys : Keys) (dt : Q) (l : t) :
  let l' := handle_input keys dt l in
  config l' = config l /\ position l' = position l /\
  velocity l' = velocity l /\ fuel l' = fuel l /\
  particles l' = particles l /\ status l' = status l /\
  status_timer l' = status_timer l.
Proof.
  unfold handle_input. fields.
  destruct (negb (Status_eqb (status l) flying)); [repeat split|].
  destruct (keys K_LEFT || keys K_a); destruct (keys K_RIGHT || keys K_d);
    fields;
    destruct ((keys K_UP || keys K_w || keys K_SPACE) && Py.ltb 0 (fuel l));
    repeat split.
Qed.

(** C7, the claim as stated fails on a narrow screen: the clamp is
    [max(40, min(width - 40, x))], and for a screen less than 80 wide the
    outer [max] wins.  Under [GameConfig(screen_size=(60, 720))] the lander
    spawned at [(30, 140)] is at [x = 40] after one [update], to the right
    of [screen_width - 40 = 20]. *)
Lemma narrow_screen_leaves_the_interval :
  let l' := fst (update axis_methods (1 # 60) half_rng squeezed) in
  status squeezed = flying /\
  fst (screen_size (config squeezed)) = 60%Z /\
  status l' = flying /\
  Vector2.x (position l') == 40 /\
  ~ Vector2.x (position l')
    <= inject_Z (fst (screen_size (config squeezed)) - 40).
Proof.
  cbv zeta.
  repeat match goal with |- _ /\ _ => split end;
    try (vm_compute; reflexivity).
  vm_compute. intros H. apply H. reflexivity.
Qed.

(** C7, amended.  After [update] on a flying lander the horizontal
    position is [max(40, min(screen_width - 40, x))] of the integrated
    [x]: it is at least 40 whatever the screen, at most
    [screen_width - 40] when the screen is at least 80 wide (as the 960 of
    the game is), and 40 when the screen is narrower.  The clamp touches
    [position.x] only: the velocity is the integrated value
    [velocity + acceleration * dt], both components, and [position.y] is
    the integrated one, also when the horizontal position was clamped. *)
Theorem horizontal_clamp vm (dt : Q) (g : Random.Rng) (l : t) :
  status l = flying ->
  let l' := fst (update vm dt g l) in
  let width := fst (screen_size (config l)) in
  40 <= Vector2.x (position l') /\
  ((80 <= width)%Z -> Vector2.x (position l') <= inject_Z (width - 40)) /\
  ((width < 80)%Z -> Vector2.x (position l') = 40) /\
  Vector2.x (position l') =
    Py.max 40 (Py.min (inject_Z (width - 40))
                      (Vector2.x (integrated_position vm dt l))) /\
  Vector2.y (position l') = Vector2.y (integrated_position vm dt l) /\
  velocity l' = Vector2.add (velocity l) (Vector2.scale (acceleration vm l) dt).
Proof.
  intros Hf l' width.
  destruct (update_flying vm dt g l Hf) as (_ & Hv & Hp & _).
  fold l' in Hv, Hp. rewrite Hp, Hv. fold width. vectors.
  split; [apply py_max_lower|].
  split; [|split; [|repeat split]].
  - intros Hw.
    assert (H40 : 40 <= inject_Z (width - 40)).
    { change 40 with (inject_Z 40). rewrite <- Zle_Qle. lia. }
    apply py_max_upper; [exact H40 | apply py_min_upper].
  - intros Hw.
    assert (H40 : inject_Z (width - 40) < 40).
    { change 40 with (inject_Z 40). rewrite <- Zlt_Qlt. lia. }
    pose proof (py_min_upper (inject_Z (width - 40))
                             (Vector2.x (integrated_position vm dt l))) as Hm.
    unfold Py.max.
    match goal with
    | |- (if Py.ltb ?a ?b then _ else _) = _ =>
        assert (Hn : Py.ltb a b = false) by (apply ltb_ge; lra);
        now rewrite Hn
    end.
Qed.

Lemma horizontal_clamp_witness :
  let l' := fst (update axis_methods 1 half_rng drifting) in
  status drifting = flying /\
  (80 <= fst (screen_size (config drifting)))%Z /\
  40 <= Vector2.x (position l') /\
  Vector2.x (position l')
    <= inject_Z (fst (screen_size (config drifting)) - 40).
Proof.
  assert (Hf : status drifting = flying) by reflexivity.
  assert (Hw : (80 <= fst (screen_size (config drifting)))%Z)
    by (vm_compute; discriminate).
  split; [exact Hf|]. split; [exact Hw|].
  split.
  - exact (proj1 (horizontal_clamp axis_methods 1 half_rng drifting Hf)).
  - exact (proj1 (proj2 (horizontal_clamp axis_methods 1 half_rng drifting Hf))
                 Hw).
Defined.

(** *** Fuel *)

Lemma update_fuel_le vm (dt : Q) (g : Random.Rng) (l : t) :
  0 <= dt -> 0 <= fuel_burn_rate (config l) ->
  fuel (fst (update vm dt g l)) <= fuel l.
Proof.
  intros Hdt Hb.
  destruct (Status_eqb (status l) flying) eqn:Es.
  - apply Status_eqb_eq in Es.
    destruct (update_flying vm dt g l Es) as (_ & _ & _ & _ & Hfu & _).
    rewrite Hfu.
    destruct (thrusting l && Py.ltb 0 (fuel l)) eqn:Eb; [|lra].
    apply andb_prop in Eb. destruct Eb as [_ Eb]. apply ltb_lt in Eb.
    pose proof (Qmult_le_0_compat _ _ Hb Hdt).
    apply py_max_upper; lra.
  - rewrite update_grounded.
    + simpl. lra.
    + intros E. rewrite E in Es. discriminate.
Qed.

Lemma update_fuel_nonneg vm (dt : Q) (g : Random.Rng) (l : t) :
  0 <= fuel l -> 0 <= fuel (fst (update vm dt g l)).
Proof.
  intros H0.
  destruct (Status_eqb (status l) flying) eqn:Es.
  - apply Status_eqb_eq in Es.
    destruct (update_flying vm dt g l Es) as (_ & _ & _ & _ & Hfu & _).
    rewrite Hfu.
    destruct (thrusting l && Py.ltb 0 (fuel l)); [apply py_max_lower|exact H0].
  - rewrite update_grounded.
    + exact H0.
    + intros E. rewrite E in Es. discriminate.
Qed.

Lemma update_config vm (dt : Q) (g : Random.Rng) (l : t) :
  config (fst (update vm dt g l)) = config l.
Proof.
  destruct (Status_eqb (status l) flying) eqn:Es.
  - apply Status_eqb_eq in Es.
    now destruct (update_flying vm dt g l Es) as (Hc & _).
  - rewrite update_grounded; [reflexivity|].
    intros E. rewrite E in Es. discriminate.
Qed.

Lemma frame_fuel vm keys (dt : Q) pad (g : Random.Rng) (l : t) :
  let l' := fst (frame vm keys dt pad g l) in
  config l' = config l /\
  (0 <= fuel l -> 0 <= fuel l') /\
  (0 <= dt -> 0 <= fuel_burn_rate (config l) -> fuel l' <= fuel l).
Proof.
  unfold frame.
  destruct (handle_input_fields keys dt l) as (Hc & _ & _ & Hfu & _).
  destruct (update vm dt g (handle_input keys dt l)) as [l1 g1] eqn:Eu.
  assert (El : l1 = fst (update vm dt g (handle_input keys dt l)))
    by now rewrite Eu.
  cbn [fst].
  destruct (Landing.check_landing_keeps_tank pad l1) as (Hc' & Hfu').
  rewrite Hc', Hfu', El, update_config, Hc.
  split; [reflexivity|]. split.
  - intros H0. apply update_fuel_nonneg. now rewrite Hfu.
  - intros Hdt Hb. rewrite <- Hfu. apply update_fuel_le; [exact Hdt|].
    now rewrite Hc.
Qed.

Lemma run_fuel vm pad (frames : list (Keys * Q)) : forall g (l : t),
  Forall (fun f => 0 <= snd f) frames ->
  0 <= fuel_burn_rate (config l) ->
  0 <= fuel l ->
  let l' := fst (run vm frames pad g l) in
  config l' = config l /\ fuel l' <= fuel l /\ 0 <= fuel l'.
Proof.
  induction frames as [|[keys dt] rest IH]; intros g l Hdts Hb H0;
    cbn [run fst].
  - repeat split; [lra | exact H0].
  - inversion Hdts as [|? ? Hdt Hrest]; subst. cbn [snd] in Hdt.
    destruct (frame_fuel vm keys dt pad g l) as (Hc & Hnn & Hle).
    destruct (frame vm keys dt pad g l) as [l1 g1]. cbn [fst] in *.
    destruct (IH g1 l1 Hrest) as (Hc' & Hle' & Hnn').
    + now rewrite Hc.
    + now apply Hnn.
    + specialize (Hle Hdt Hb). rewrite Hc', Hc.
      repeat split; [lra | exact Hnn'].
Qed.

(** C4, the claim as stated fails: [update] can refill the tank, and the
    fuel can lie outside [0, fuel_capacity].

    A negative time step.  [update(-1)] on the lander at spawn with the
    engine on takes the fuel from 100 to [max(0, 100 - 22 * (-1)) = 122],
    which is more than before and more than [fuel_capacity = 100].

    A negative burn rate.  Under [GameConfig(fuel_burn_rate=-22)] the same
    happens with [update(1)].

    A negative capacity.  The lander of [GameConfig(fuel_capacity=-5)] is
    created with the fuel -5, below 0. *)
Lemma update_can_refill_the_tank :
  (let l' := fst (update axis_methods (-1) half_rng armed) in
   status armed = flying /\ thrusting armed = true /\
   fuel armed == 100 /\ fuel_capacity (config armed) == 100 /\
   fuel_burn_rate (config armed) == 22 /\
   fuel l' == 122 /\ status l' = flying /\
   ~ fuel l' <= fuel armed /\ ~ fuel l' <= fuel_capacity (config l')) /\
  (let l' := fst (update axis_methods 1 half_rng armed_leaking) in
   status armed_leaking = flying /\ thrusting armed_leaking = true /\
   fuel armed_leaking == 100 /\ fuel_capacity (config armed_leaking) == 100 /\
   fuel_burn_rate (config armed_leaking) == -22 /\
   fuel l' == 122 /\ status l' = flying /\
   ~ fuel l' <= fuel armed_leaking /\
   ~ fuel l' <= fuel_capacity (config l')) /\
  (status hollow = flying /\ fuel hollow == -5 /\
   fuel hollow = fuel_capacity (config hollow) /\ ~ 0 <= fuel hollow).
Proof.
  cbv zeta.
  repeat match goal with |- _ /\ _ => split end;
    try (vm_compute; reflexivity);
    try (vm_compute; intros H; apply H; reflexivity).
Qed.

(** C4, amended.  On a flying lander with the thrust flag set and fuel
    left, one [update] leaves exactly [max(0, fuel - fuel_burn_rate * dt)]
    in the tank.  [handle_input] and [check_landing] do not touch the
    fuel, and only [reset] refills it, to [fuel_capacity].  [update] never
    takes a fuel that is not negative below 0, and for a time step
    [dt >= 0] and a burn rate that is not negative it never increases the
    fuel; so through any sequence of frames of the main loop with such
    time steps and burn rate, a fuel that starts within
    [0, fuel_capacity] does not increase and stays within
    [0, fuel_capacity]. *)
Theorem fuel_only_burns vm (frames : list (Keys * Q)) (pad : LandingPad.t)
    (g : Random.Rng) (dt : Q) (l : t) :
  (status l = flying -> thrusting l = true -> 0 < fuel l ->
   fuel (fst (update vm dt g l))
     = Py.max 0 (fuel l - fuel_burn_rate (config l) * dt) /\
   fuel (fst (update vm dt g l))
     == Qmax 0 (fuel l - fuel_burn_rate (config l) * dt)) /\
  (forall keys, fuel (handle_input keys dt l) = fuel l) /\
  fuel (check_landing pad l) = fuel l /\
  (forall cfg pos, fuel (reset cfg pos l) = fuel_capacity cfg) /\
  (0 <= fuel l -> 0 <= fuel (fst (update vm dt g l))) /\
  (0 <= dt -> 0 <= fuel_burn_rate (config l) ->
   fuel (fst (update vm dt g l)) <= fuel l) /\
  (Forall (fun f => 0 <= snd f) frames ->
   0 <= fuel_burn_rate (config l) ->
   0 <= fuel l <= fuel_capacity (config l) ->
   let l' := fst (run vm frames pad g l) in
   fuel l' <= fuel l /\ 0 <= fuel l' <= fuel_capacity (config l')).
Proof.
  split; [|split; [|split; [|split; [|split; [|split]]]]].
  - intros Hf Ht Hp.
    destruct (update_flying vm dt g l Hf) as (_ & _ & _ & _ & Hfu & _).
    apply ltb_lt in Hp. rewrite Ht, Hp in Hfu. cbn [andb] in Hfu.
    rewrite Hfu. split; [reflexivity | apply py_max_Qmax].
  - intros keys. now destruct (handle_input_fields keys dt l) as (_ & _ & _ & H & _).
  - now destruct (Landing.check_landing_keeps_tank pad l).
  - reflexivity.
  - apply update_fuel_nonneg.
  - apply update_fuel_le.
  - intros Hdts Hb [H0 Hcap] l'.
    destruct (run_fuel vm pad frames g l Hdts Hb H0) as (Hc & Hle & Hnn).
    fold l' in Hc, Hle, Hnn. rewrite Hc.
    repeat split; [exact Hle | exact Hnn | lra].
Qed.

Lemma fuel_only_burns_witness :
  let l := set_thrusting true spawn in
  status l = flying /\ thrusting l = true /\ 0 < fuel l /\
  fuel (fst (update axis_methods (1 # 60) half_rng l))
    = Py.max 0 (fuel l - fuel_burn_rate (config l) * (1 # 60)).
Proof.
  intros l.
  assert (Hf : status l = flying) by reflexivity.
  assert (Ht : thrusting l = true) by reflexivity.
  assert (Hp : 0 < fuel l) by reflexivity.
  repeat (split; [assumption|]).
  exact (proj1 (proj1 (fuel_only_burns axis_methods approach centre_pad
                         half_rng (1 # 60) l) Hf Ht Hp)).
Defined.

(** *** Particles *)

Lemma update_all_filter (dt : Q) (ps : list Particle.t) :
  update_all dt ps =
  map (fun p => fst (Particle.update dt p))
      (filter (fun p => Py.ltb 0 (Particle.lifetime p - dt)) ps).
Proof.
  induction ps as [|p ps IH]; cbn [update_all filter map].
  - reflexivity.
  - unfold Particle.update at 1.
    destruct (Py.ltb 0 (Particle.lifetime p - dt)); cbn [map]; now rewrite IH.
Qed.

Lemma update_all_alive (dt : Q) (ps : list Particle.t) :
  Forall (fun p => 0 < Particle.lifetime p) (update_all dt ps).
Proof.
  induction ps as [|p ps IH]; cbn [update_all].
  - constructor.
  - unfold Particle.update.
    destruct (Py.ltb 0 (Particle.lifetime p - dt)) eqn:E; [|exact IH].
    constructor; [|exact IH]. apply ltb_lt in E. exact E.
Qed.

Lemma update_all_count (dt : Q) (ps : list Particle.t) :
  (List.length (update_all dt ps)
   + List.length (filter (fun p => Qle_bool (Particle.lifetime p - dt) 0) ps)
   = List.length ps)%nat.
Proof.
  rewrite update_all_filter, length_map, Nat.add_comm.
  apply (filter_length (fun p => Qle_bool (Particle.lifetime p - dt) 0)).
Qed.

(** C8, the claim as stated fails on a lander that is not flying:
    [update] returns before it reaches the particles.  The lander that
    touched down keeps its six particles through an [update] of a whole
    second, although decrementing and pruning them would leave none. *)
Lemma grounded_update_keeps_particles :
  let l' := fst (update axis_methods 1 half_rng touchdown) in
  status touchdown = landed /\
  particles l' = particles touchdown /\
  List.length (particles l') = 6%nat /\
  update_all 1 (particles touchdown) = [].
Proof. vm_compute. repeat split. Qed.

(** C8, amended.  On a flying lander, [update] appends three new
    particles when the engine burns (none otherwise), then decrements the
    lifetime of every particle by [dt] and keeps exactly those whose
    decremented lifetime is positive: no particle with lifetime at most 0
    remains, and the count is the old count plus the spawned ones minus
    the expired ones.  On a lander that is not flying, [update] leaves the
    particle collection as it is. *)
Theorem particle_lifecycle vm (dt : Q) (g : Random.Rng) (l : t) :
  let l' := fst (update vm dt g l) in
  let pool := particles l ++ spawned vm g l in
  let expired p := Qle_bool (Particle.lifetime p - dt) 0 in
  (status l = flying ->
   List.length (spawned vm g l)
     = (if thrusting l && Py.ltb 0 (fuel l) then 3 else 0)%nat /\
   particles l'
     = map (fun p => fst (Particle.update dt p))
           (filter (fun p => negb (expired p)) pool) /\
   Forall (fun p => 0 < Particle.lifetime p) (particles l') /\
   (List.length (particles l') + List.length (filter expired pool)
    = List.length (particles l) + List.length (spawned vm g l))%nat) /\
  (status l <> flying -> particles l' = particles l).
Proof.
  intros l' pool expired. split.
  - intros Hf.
    destruct (update_flying vm dt g l Hf)
      as (_ & _ & _ & _ & _ & _ & Hps & _).
    fold l' pool in Hps. rewrite Hps.
    split; [apply spawned_length|].
    split; [apply update_all_filter|].
    split; [apply update_all_alive|].
    rewrite <- (length_app (particles l) (spawned vm g l)).
    apply update_all_count.
  - intros Hg. unfold l'. now rewrite update_grounded.
Qed.

Lemma particle_lifecycle_witness :
  status last_burn = flying /\
  List.length (spawned axis_methods half_rng last_burn)
    = (if thrusting last_burn && Py.ltb 0 (fuel last_burn) then 3 else 0)%nat.
Proof.
  assert (Hf : status last_burn = flying) by (vm_compute; reflexivity).
  split; [exact Hf|].
  exact (proj1 (proj1 (particle_lifecycle axis_methods (1 # 8) half_rng
                         last_burn) Hf)).
Defined.

(** *** A second of thrust *)

Section Burn.

Variable vm : Vector2.Methods.
Variable keys : Keys.

(** pygame returns the vector itself for a rotation by zero degrees. *)
Hypothesis rotate_zero : forall v, Vector2.rotate vm v 0 = v.

Hypothesis no_left : keys K_LEFT || keys K_a = false.
Hypothesis no_right : keys K_RIGHT || keys K_d = false.
Hypothesis thrust_held : keys K_UP || keys K_w || keys K_SPACE = true.

Lemma handle_input_burn (dt : Q) (l : t) :
  status l = flying -> 0 < fuel l ->
  handle_input keys dt l = set_thrusting true (set_thrusting false l).
Proof.
  intros Hf Hp. apply ltb_lt in Hp. unfold handle_input. fields.
  rewrite (flying_guard _ Hf), no_left, no_right. fields.
  now rewrite thrust_held, Hp.
Qed.

Lemma total_positive (dts : list Q) :
  Forall (fun dt => 0 < dt) dts -> 0 <= total dts.
Proof.
  induction 1 as [|dt rest Hdt _ IH]; cbn [total fold_right].
  - lra.
  - fold (total rest). lra.
Qed.

(** The invariant of the burn: upright, flying, rising or at rest,
    above the crash line, with fuel for the time that is left. *)
Lemma steer_burn (dts : list Q) : forall (g : Random.Rng) (l : t),
  Forall (fun dt => 0 < dt) dts ->
  gravity (config l) == 36 ->
  thrust_force (config l) == 120 ->
  fuel_burn_rate (config l) == 22 ->
  status l = flying ->
  angle l = 0 ->
  Vector2.y (velocity l) <= 0 ->
  Vector2.y (position l) <= inject_Z (snd (screen_size (config l)) + 80) ->
  22 * total dts < fuel l ->
  let l' := fst (steer vm keys dts g l) in
  status l' = flying /\
  Vector2.y (velocity l') == Vector2.y (velocity l) - 84 * total dts /\
  fuel l' == fuel l - 22 * total dts.
Proof.
  induction dts as [|dt rest IH];
    intros g l Hdts Hg Ht Hb Hf Ha Hv Hy Hfuel;
    cbn [steer fst total fold_right] in *.
  - repeat split; [exact Hf | ring | ring].
  - fold (total rest) in *.
    inversion Hdts as [|? ? Hdt Hrest]; subst.
    pose proof (total_positive rest Hrest) as Htot.
    assert (Hp : 0 < fuel l) by lra.
    rewrite (handle_input_burn dt l Hf Hp).
    set (l1 := set_thrusting true (set_thrusting false l)).
    assert (Hf1 : status l1 = flying) by exact Hf.
    destruct (update_flying vm dt g l1 Hf1)
      as (Hc2 & Hv2 & Hp2 & Ha2 & Hfu2 & _ & _ & Hs2 & _).
    destruct (update vm dt g l1) as [l2 g2]. cbn [fst] in *.
    unfold integrated_position, integrated_velocity, acceleration in *.
    subst l1. fields.
    apply ltb_lt in Hp. rewrite Hp in *. cbn [andb] in *.
    rewrite Ha in *.
    change (- (0 : Q)) with (0 : Q) in *.
    rewrite rotate_zero in *.
    unfold Vector2.add, Vector2.scale in *. vectors.
    assert (Ev : Vector2.y (velocity l2)
                 == Vector2.y (velocity l) - 84 * dt).
    { rewrite Hv2. vectors. rewrite Hg, Ht. ring. }
    assert (Hv2' : Vector2.y (velocity l2) <= 0) by (rewrite Ev; lra).
    assert (Ey : Vector2.y (position l2)
                 == Vector2.y (position l) + Vector2.y (velocity l2) * dt).
    { rewrite Hp2, Hv2. vectors. ring. }
    assert (Hprod : Vector2.y (velocity l2) * dt <= 0).
    { setoid_replace (0 : Q) with (0 * dt) by ring.
      apply Qmult_le_compat_r; lra. }
    assert (Hy2 : Vector2.y (position l2)
                  <= inject_Z (snd (screen_size (config l)) + 80))
      by (rewrite Ey; lra).
    assert (Eb : fuel_burn_rate (config l) * dt == 22 * dt)
      by (rewrite Hb; reflexivity).
    assert (Ef : fuel l2 = fuel l - fuel_burn_rate (config l) * dt).
    { rewrite Hfu2. unfold Py.max.
      assert (Hpos : 0 < fuel l - fuel_burn_rate (config l) * dt)
        by (rewrite Eb; lra).
      apply ltb_lt in Hpos. now rewrite Hpos. }
    assert (Ef' : fuel l2 == fuel l - 22 * dt) by (rewrite Ef, Eb; reflexivity).
    assert (Hs2' : status l2 = flying).
    { rewrite Hs2.
      match goal with
      | |- (if Py.ltb ?a ?b then _ else _) = _ =>
          assert (Hn : Py.ltb a b = false);
          [ apply ltb_ge;
            assert (E : b == Vector2.y (position l2))
              by (rewrite Hp2; reflexivity);
            rewrite E; exact Hy2
          | now rewrite Hn ]
      end. }
    assert (Hfuel2 : 22 * total rest < fuel l2) by (rewrite Ef'; lra).
    rewrite <- Hc2 in Hg, Ht, Hb, Hy2.
    destruct (IH g2 l2 Hrest Hg Ht Hb Hs2' Ha2 Hv2' Hy2 Hfuel2)
      as (Hs3 & Hv3 & Hf3).
    split; [exact Hs3|]. split.
    + rewrite Hv3, Ev. ring.
    + rewrite Hf3, Ef'. ring.
Qed.

End Burn.

(** C3, the claim as stated fails in three ways.

    Below the screen.  For a lander that starts below the crash line
    [screen_height + 80] the first [update] declares the crash and the
    second does not integrate: after two steps of half a second the lander
    created at height 1000 has vertical velocity -42.

    In binary64.  From the spawn state of [run_game], with the thrust key
    held through frames of 60, 760 and 180 milliseconds (the doubles
    [0.06], [0.76] and [0.18], whose sum is exactly 1), the code ends with
    the vertical velocity [-84.00000000000001], one unit in the last place
    below -84; the lander is still flying.

    With a rotation key.  The claim asks for the thrust key, and does not
    exclude that a rotation key is held with it: with the left key held
    as well, one step of a second turns the lander to 90 degrees before
    the burn, and the vertical velocity ends at 36. *)
Lemma thrust_for_a_second_misses_minus_84 :
  (let l' := fst (steer axis_methods thrust_keys [1 # 2; 1 # 2] half_rng sunk) in
   config sunk = GameConfig_default /\ status sunk = flying /\
   velocity sunk = Vector2.mk 0 0 /\ angle sunk = 0 /\
   fuel sunk = fuel_capacity (config sunk) /\
   Forall (fun dt => 0 < dt) [1 # 2; 1 # 2] /\ total [1 # 2; 1 # 2] == 1 /\
   status l' = crashed /\
   Vector2.y (velocity l') == -42 /\ ~ Vector2.y (velocity l') == -84) /\
  (let dts := Binary64.frame_times [60; 760; 180]%Z in
   let l := Binary64.spawn in
   let l' := fst (Binary64.Lander.steer Binary64.quarter_rotate thrust_keys
                    dts Binary64.half_rng l) in
   let vy := Binary64.Vector2.y (Binary64.Lander.velocity l') in
   Binary64.Lander.config l = Binary64.GameConfig_default /\
   Binary64.Lander.status l = flying /\
   Binary64.Lander.velocity l
     = Binary64.Vector2.mk (Binary64.Py.of_int 0) (Binary64.Py.of_int 0) /\
   Binary64.Lander.angle l = Binary64.Py.of_int 0 /\
   Binary64.Lander.fuel l
     = Binary64.fuel_capacity (Binary64.Lander.config l) /\
   Forall (fun dt => 0 < Binary64.Py.rational dt) dts /\
   total (map Binary64.Py.rational dts) == 1 /\
   Binary64.Lander.status l' = flying /\
   Binary64.Py.rational vy == -84 - (1 # 70368744177664) /\
   ~ Binary64.Py.rational vy == -84 /\
   PrimFloat.eqb vy (Binary64.Py.of_int (-84)) = false) /\
  (let l' := fst (steer axis_methods thrust_left_keys [1] half_rng spawn) in
   config spawn = GameConfig_default /\ status spawn = flying /\
   velocity spawn = Vector2.mk 0 0 /\ angle spawn = 0 /\
   fuel spawn = fuel_capacity (config spawn) /\
   thrust_left_keys K_UP = true /\
   Vector2.y (position spawn)
     <= inject_Z (snd (screen_size (config spawn)) + 80) /\
   Forall (fun dt => 0 < dt) [1] /\ total [1] == 1 /\
   status l' = flying /\ angle l' == 90 /\
   Vector2.y (velocity l') == 36 /\ ~ Vector2.y (velocity l') == -84).
Proof.
  cbv zeta.
  repeat match goal with |- _ /\ _ => split end;
    try (vm_compute; reflexivity);
    try (vm_compute; discriminate);
    repeat constructor.
Qed.

(** C3, amended.  In exact arithmetic: a flying lander with gravity 36,
    thrust force 120, tank capacity 100 and burn rate 22, with zero
    vertical velocity, angle 0 and a full tank, that is not below the
    crash line ([position.y <= screen_height + 80]), is driven by
    [handle_input] with a thrust key held and no rotation key, followed by
    [update], over any sequence of positive time steps that sum to one
    second.  It stays flying and ends with [velocity.y = -84] and 78 units
    of fuel. *)
Theorem thrust_one_second vm (keys : Keys) (dts : list Q)
    (g : Random.Rng) (l : t) :
  (forall v, Vector2.rotate vm v 0 = v) ->
  keys K_LEFT || keys K_a = false ->
  keys K_RIGHT || keys K_d = false ->
  keys K_UP || keys K_w || keys K_SPACE = true ->
  gravity (config l) == 36 ->
  thrust_force (config l) == 120 ->
  fuel_capacity (config l) == 100 ->
  fuel_burn_rate (config l) == 22 ->
  status l = flying ->
  Vector2.y (velocity l) == 0 ->
  angle l = 0 ->
  fuel l == fuel_capacity (config l) ->
  Vector2.y (position l) <= inject_Z (snd (screen_size (config l)) + 80) ->
  Forall (fun dt => 0 < dt) dts ->
  total dts == 1 ->
  let l' := fst (steer vm keys dts g l) in
  Vector2.y (velocity l') == -84 /\ status l' = flying /\ fuel l' == 78.
Proof.
  intros Hrot Hl Hr Hu Hg Ht Hcap Hb Hf Hv Ha Hfu Hy Hdts Htot l'.
  assert (Hv0 : Vector2.y (velocity l) <= 0) by lra.
  assert (Hfuel : 22 * total dts < fuel l) by lra.
  destruct (steer_burn vm keys Hrot Hl Hr Hu dts g l Hdts Hg Ht Hb Hf Ha Hv0
                       Hy Hfuel)
    as (Hs' & Hv' & Hf').
  fold l' in Hs', Hv', Hf'.
  split; [|split]; [ | exact Hs' | ]; lra.
Qed.

Lemma thrust_one_second_witness :
  Vector2.y (velocity
    (fst (steer axis_methods thrust_keys [1 # 4; 1 # 2; 1 # 4] half_rng spawn)))
  == -84.
Proof.
  refine (proj1 (thrust_one_second axis_methods thrust_keys
                   [1 # 4; 1 # 2; 1 # 4] half_rng spawn
                   _ _ _ _ _ _ _ _ _ _ _ _ _ _ _)).
  - intros v. reflexivity.
  - reflexivity.
  - reflexivity.
  - reflexivity.
  - reflexivity.
  - reflexivity.
  - reflexivity.
  - reflexivity.
  - reflexivity.
  - reflexivity.
  - reflexivity.
  - reflexivity.
  - vm_compute. discriminate.
  - repeat constructor.
  - vm_compute. reflexivity.
Defined.

End Flight.


(** * Further properties of the code *)

(** ** Steering and flight *)

Module Controls.
Import Lander LanderFacts.

(** [handle_input] on a flying lander, field by field. *)
Lemma handle_input_flying (keys : Keys) (dt : Q) (l : t) :
  status l = flying ->
  let l' := handle_input keys dt l in
  let left := keys K_LEFT || keys K_a in
  let right := keys K_RIGHT || keys K_d in
  thrusting l' = (keys K_UP || keys K_w || keys K_SPACE) && Py.ltb 0 (fuel l) /\
  angle l' =
    (if right
     then (if left then angle l + rotation_speed (config l) * dt else angle l)
          - rotation_speed (config l) * dt
     else if left then angle l + rotation_speed (config l) * dt else angle l).
Proof.
  intros Hf. unfold handle_input. Flight.fields.
  rewrite (flying_guard _ Hf).
  destruct (keys K_LEFT || keys K_a); destruct (keys K_RIGHT || keys K_d);
    Flight.fields;
    destruct ((keys K_UP || keys K_w || keys K_SPACE) && Py.ltb 0 (fuel l));
    split; reflexivity.
Qed.

(** X1.  After [handle_input] the thrusting flag is set exactly when the
    lander is flying, one of the thrust keys (up, w, space) is held and
    there is fuel left. *)
Theorem thrust_armed_iff (keys : Keys) (dt : Q) (l : t) :
  thrusting (handle_input keys dt l) = true <->
  status l = flying /\
  keys K_UP || keys K_w || keys K_SPACE = true /\
  0 < fuel l.
Proof.
  destruct (Status_eqb (status l) flying) eqn:Es.
  - apply Status_eqb_eq in Es.
    destruct (handle_input_flying keys dt l Es) as [Ht _].
    rewrite Ht, andb_true_iff, ltb_lt. tauto.
  - assert (Hg : status l <> flying).
    { intros E. rewrite E in Es. discriminate. }
    rewrite (handle_input_grounded keys dt l Hg). cbn.
    split; [discriminate | tauto].
Qed.

(** X3.  [update] on a flying lander never reports a landing: it leaves
    the lander flying, or declares a crash, and it does the latter exactly
    when the integrated vertical position is beyond
    [screen_height + 80].  A lander that is still flying after [update] is
    therefore at or above that line. *)
Theorem update_crash_rule vm (dt : Q) (g : Random.Rng) (l : t) :
  status l = flying ->
  let l' := fst (update vm dt g l) in
  let y := Vector2.y (integrated_position vm dt l) in
  let line := inject_Z (snd (screen_size (config l)) + 80) in
  status l' <> landed /\
  (status l' = crashed <-> line < y) /\
  (status l' = flying <-> y <= line) /\
  Vector2.y (position l') = y /\
  (status l' = flying -> Vector2.y (position l') <= line).
Proof.
  intros Hf l' y line.
  destruct (Flight.update_flying vm dt g l Hf)
    as (_ & _ & Hp & _ & _ & _ & _ & Hs & _).
  fold l' y line in Hp, Hs.
  assert (Hy : Vector2.y (position l') = y) by (rewrite Hp; reflexivity).
  rewrite Hy, Hs.
  destruct (Py.ltb line y) eqn:E.
  - apply ltb_lt in E.
    repeat split; try discriminate; try tauto; try (intros; lra).
  - apply ltb_ge in E.
    repeat split; try discriminate; try tauto; try (intros; lra).
Qed.

Lemma update_crash_rule_witness :
  status sunk = flying /\
  status (fst (update axis_methods (1 # 2) half_rng sunk)) <> landed.
Proof.
  assert (Hf : status sunk = flying) by reflexivity.
  split; [exact Hf|].
  exact (proj1 (update_crash_rule axis_methods (1 # 2) half_rng sunk Hf)).
Defined.

End Controls.

(** ** Coasting, the empty tank, and what every frame preserves *)

Module Coasting.
Import Lander LanderFacts.

(** [check_landing] either returns its argument or ends the flight. *)
Lemma check_landing_cases (pad : LandingPad.t) (l : t) :
  check_landing pad l = l \/
  (status l = flying /\
   exists s, s <> flying /\
             check_landing pad l = set_status_timer 0 (set_status s l)).
Proof.
  unfold check_landing.
  destruct (Status_eqb (status l) flying) eqn:Es; cbn [negb]; [|now left].
  apply Status_eqb_eq in Es.
  destruct (touches_pad l pad); [|now left].
  right. split; [exact Es|].
  destruct (_ && _); [exists landed | exists crashed];
    split; try discriminate; reflexivity.
Qed.

Lemma update_all_length_le (dt : Q) (ps : list Particle.t) :
  (List.length (update_all dt ps) <= List.length ps)%nat.
Proof. rewrite <- (Flight.update_all_count dt ps). lia. Qed.

(** One [handle_input]; [update] pair without thrust: gravity alone. *)
Lemma unpowered_step vm (keys : Keys) (dt : Q) (g : Random.Rng) (l : t) :
  status l = flying ->
  (keys K_UP || keys K_w || keys K_SPACE) && Py.ltb 0 (fuel l) = false ->
  let l' := fst (update vm dt g (handle_input keys dt l)) in
  config l' = config l /\ fuel l' = fuel l /\ thrusting l' = false /\
  velocity l' =
    Vector2.add (velocity l)
                (Vector2.scale (Vector2.mk 0 (gravity (config l))) dt) /\
  particles l' = update_all dt (particles l).
Proof.
  intros Hf Hoff l'.
  destruct (Controls.handle_input_flying keys dt l Hf) as [Ht _].
  destruct (Flight.handle_input_fields keys dt l)
    as (Hc & _ & Hv & Hfu & Hps & Hs & _).
  rewrite Hoff in Ht.
  set (l1 := handle_input keys dt l) in *.
  assert (Hf1 : status l1 = flying) by (rewrite Hs; exact Hf).
  destruct (Flight.update_flying vm dt g l1 Hf1)
    as (Hc2 & Hv2 & _ & _ & Hfu2 & Ht2 & Hps2 & _).
  fold l' in Hc2, Hv2, Hfu2, Ht2, Hps2.
  unfold integrated_velocity, acceleration, spawned in *.
  rewrite Ht in *. cbn [andb] in *.
  rewrite app_nil_r in Hps2.
  rewrite Hc2, Hfu2, Ht2, Hv2, Hps2, Hc, Hv, Hfu, Hps.
  repeat split.
Qed.

Lemma steer_grounded vm (keys : Keys) (dts : list Q) :
  forall (g : Random.Rng) (l : t),
  status l <> flying -> status (fst (steer vm keys dts g l)) = status l.
Proof.
  induction dts as [|dt rest IH]; intros g l Hg; cbn [steer fst].
  - reflexivity.
  - rewrite (handle_input_grounded keys dt l Hg).
    rewrite update_grounded by exact Hg.
    now rewrite IH.
Qed.

(** The vertical velocity of an unpowered fall does not decrease. *)
Lemma free_fall_le (pull : Q) (dts : list Q) : forall (vy : Q),
  0 <= pull -> Forall (fun dt => 0 <= dt) dts ->
  vy <= free_fall pull dts vy.
Proof.
  unfold free_fall.
  induction dts as [|dt rest IH]; intros vy Hp Hdts; cbn [fold_left].
  - lra.
  - inversion Hdts as [|? ? Hdt Hrest]; subst.
    pose proof (Qmult_le_0_compat _ _ Hp Hdt).
    specialize (IH (vy + pull * dt) Hp Hrest). lra.
Qed.

(** X4.  Without thrust (no thrust key held, or no fuel) a lander that
    is still flying after a sequence of [handle_input]; [update] steps has
    kept its horizontal velocity and its fuel, has its engine flag clear
    and no more particles than before.  Its vertical velocity is the one
    that adding [gravity * dt] step by step gives, and for a gravity and
    time steps that are not negative it is at least the vertical velocity
    at the start: an unpowered lander never slows its fall. *)
Theorem coasting vm (keys : Keys) (dts : list Q) :
  forall (g : Random.Rng) (l : t),
  (keys K_UP || keys K_w || keys K_SPACE) && Py.ltb 0 (fuel l) = false ->
  status (fst (steer vm keys dts g l)) = flying ->
  let l' := fst (steer vm keys dts g l) in
  Vector2.x (velocity l') == Vector2.x (velocity l) /\
  Vector2.y (velocity l') =
    free_fall (gravity (config l)) dts (Vector2.y (velocity l)) /\
  (0 <= gravity (config l) -> Forall (fun dt => 0 <= dt) dts ->
   Vector2.y (velocity l) <= Vector2.y (velocity l')) /\
  fuel l' = fuel l /\
  (dts <> [] -> thrusting l' = false) /\
  (List.length (particles l') <= List.length (particles l))%nat.
Proof.
  induction dts as [|dt rest IH]; intros g l Hoff Hend;
    cbn [steer fst] in *.
  - split; [reflexivity|]. split; [reflexivity|].
    split; [intros _ _; unfold free_fall; cbn [fold_left]; lra|].
    split; [reflexivity|]. split; [intros H; now contradiction H | lia].
  - assert (Hf : status l = flying).
    { destruct (Status_eqb (status l) flying) eqn:Es;
        [now apply Status_eqb_eq|].
      assert (Hg : status l <> flying).
      { intros E. rewrite E in Es. discriminate. }
      pose proof (steer_grounded vm keys (dt :: rest) g l Hg) as Hst.
      cbn [steer] in Hst. rewrite Hst in Hend. contradiction. }
    destruct (unpowered_step vm keys dt g l Hf Hoff)
      as (Hc & Hfu & Hth & Hv & Hps).
    destruct (update vm dt g (handle_input keys dt l)) as [l1 g1].
    cbn [fst] in *.
    assert (Hoff1 : (keys K_UP || keys K_w || keys K_SPACE)
                    && Py.ltb 0 (fuel l1) = false) by (rewrite Hfu; exact Hoff).
    destruct (IH g1 l1 Hoff1 Hend) as (Hx & Hy & _ & Hfu' & Hth' & Hps').
    assert (Ey : Vector2.y (velocity l1)
                 = Vector2.y (velocity l) + gravity (config l) * dt)
      by (rewrite Hv; reflexivity).
    assert (Efall : Vector2.y (velocity (fst (steer vm keys rest g1 l1)))
                    = free_fall (gravity (config l)) (dt :: rest)
                                (Vector2.y (velocity l))).
    { rewrite Hy, Hc, Ey. reflexivity. }
    split.
    { rewrite Hx, Hv. unfold Vector2.add, Vector2.scale.
      cbn [Vector2.x Vector2.y]. ring. }
    split; [exact Efall|].
    split; [intros Hg Hdts; rewrite Efall; now apply free_fall_le|].
    split; [now rewrite Hfu', Hfu|].
    split.
    + intros _. destruct rest as [|dt' rest'].
      * cbn [steer fst]. exact Hth.
      * apply Hth'. discriminate.
    + rewrite Hps in Hps'.
      pose proof (update_all_length_le dt (particles l)). lia.
Qed.

Lemma coasting_witness :
  let dts := [1; 1 # 2] in
  (no_keys K_UP || no_keys K_w || no_keys K_SPACE) && Py.ltb 0 (fuel spawn)
    = false /\
  status (fst (steer axis_methods no_keys dts half_rng spawn)) = flying /\
  Vector2.x (velocity (fst (steer axis_methods no_keys dts half_rng spawn)))
    == Vector2.x (velocity spawn).
Proof.
  intros dts.
  assert (Hoff : (no_keys K_UP || no_keys K_w || no_keys K_SPACE)
                 && Py.ltb 0 (fuel spawn) = false) by reflexivity.
  assert (Hend : status (fst (steer axis_methods no_keys dts half_rng spawn))
                 = flying) by (vm_compute; reflexivity).
  split; [exact Hoff|]. split; [exact Hend|].
  exact (proj1 (coasting axis_methods no_keys dts half_rng spawn Hoff Hend)).
Defined.

(** A frame of the main loop on a lander whose tank is empty. *)
Lemma dry_frame vm (keys : Keys) (dt : Q) (pad : LandingPad.t)
    (g : Random.Rng) (l : t) :
  fuel l <= 0 ->
  let l' := fst (frame vm keys dt pad g l) in
  fuel l' = fuel l /\ thrusting l' = false /\
  (List.length (particles l') <= List.length (particles l))%nat.
Proof.
  intros Hdry l'. apply ltb_ge in Hdry.
  assert (Hoff : (keys K_UP || keys K_w || keys K_SPACE)
                 && Py.ltb 0 (fuel l) = false)
    by (rewrite Hdry; apply andb_false_r).
  assert (Hup : let l1 := fst (update vm dt g (handle_input keys dt l)) in
                fuel l1 = fuel l /\ thrusting l1 = false /\
                (List.length (particles l1) <= List.length (particles l))%nat).
  { destruct (Status_eqb (status l) flying) eqn:Es.
    - apply Status_eqb_eq in Es.
      destruct (unpowered_step vm keys dt g l Es Hoff)
        as (_ & Hfu & Ht & _ & Hps).
      cbv zeta. rewrite Hfu, Ht, Hps.
      repeat split. apply update_all_length_le.
    - assert (Hg : status l <> flying).
      { intros E. rewrite E in Es. discriminate. }
      rewrite (handle_input_grounded keys dt l Hg).
      rewrite update_grounded by exact Hg. cbn. repeat split. lia. }
  unfold l', frame.
  destruct (update vm dt g (handle_input keys dt l)) as [l1 g1].
  cbn [fst] in *.
  destruct (check_landing_cases pad l1) as [E | (_ & s & _ & E)];
    rewrite E; exact Hup.
Qed.

(** X5.  Once the tank is empty the engine never fires again: through
    any sequence of frames of the main loop, whatever keys are held, the
    fuel keeps its value, no particle is added, and after every frame the
    thrusting flag is clear. *)
Theorem empty_tank_stays_empty vm (pad : LandingPad.t)
    (frames : list (Keys * Q)) : forall (g : Random.Rng) (l : t),
  fuel l <= 0 ->
  let l' := fst (run vm frames pad g l) in
  fuel l' = fuel l /\
  (frames <> [] -> thrusting l' = false) /\
  (List.length (particles l') <= List.length (particles l))%nat.
Proof.
  induction frames as [|[keys dt] rest IH]; intros g l Hdry; cbn [run fst].
  - repeat split; [congruence | lia].
  - destruct (dry_frame vm keys dt pad g l Hdry) as (Hfu & Ht & Hn).
    destruct (frame vm keys dt pad g l) as [l1 g1]. cbn [fst] in *.
    assert (Hdry1 : fuel l1 <= 0) by (rewrite Hfu; exact Hdry).
    destruct (IH g1 l1 Hdry1) as (Hfu' & Ht' & Hn').
    split; [congruence|]. split; [|lia].
    intros _. destruct rest as [|f rest'].
    + exact Ht.
    + apply Ht'. discriminate.
Qed.

Lemma empty_tank_stays_empty_witness :
  let l := set_fuel 0 spawn in
  fuel l <= 0 /\
  fuel (fst (run axis_methods approach centre_pad half_rng l)) = fuel l.
Proof.
  intros l.
  assert (H : fuel l <= 0) by (vm_compute; discriminate).
  split; [exact H|].
  exact (proj1 (empty_tank_stays_empty axis_methods centre_pad approach
                  half_rng l H)).
Defined.

(** *** The invariant of the lander *)

Lemma init_in_play (config : GameConfig) (start_pos : Q * Q) :
  0 <= fuel_capacity config ->
  40 <= fst start_pos <= inject_Z (fst (screen_size config) - 40) ->
  snd start_pos <= inject_Z (snd (screen_size config) + 80) ->
  in_play (init config start_pos).
Proof.
  intros Hcap Hx Hy. unfold in_play, init. Flight.fields.
  cbn [Vector2.x Vector2.y].
  split; [split; [exact Hcap | lra]|].
  split; [constructor|]. split; [exact Hx|]. intros _. exact Hy.
Qed.

Lemma update_in_play vm (dt : Q) (g : Random.Rng) (l : t) :
  0 <= dt -> 0 <= fuel_burn_rate (config l) ->
  (80 <= fst (screen_size (config l)))%Z ->
  in_play l -> in_play (fst (update vm dt g l)).
Proof.
  intros Hdt Hburn Hw ((H0 & Hcap) & Hps & Hx & Hy).
  pose proof (Flight.update_fuel_le vm dt g l Hdt Hburn) as Hle.
  pose proof (Flight.update_fuel_nonneg vm dt g l H0) as Hnn.
  pose proof (Flight.update_config vm dt g l) as Hc.
  destruct (Status_eqb (status l) flying) eqn:Es.
  - apply Status_eqb_eq in Es.
    destruct (Flight.update_flying vm dt g l Es)
      as (_ & _ & Hp & _ & _ & _ & Hps' & Hs & _).
    unfold in_play. rewrite Hc.
    split; [split; [exact Hnn | lra]|].
    split; [rewrite Hps'; apply Flight.update_all_alive|].
    rewrite Hp. cbn [Vector2.x Vector2.y].
    assert (H40 : 40 <= inject_Z (fst (screen_size (config l)) - 40)).
    { change 40 with (inject_Z 40). rewrite <- Zle_Qle. lia. }
    split.
    + split; [apply py_max_lower|].
      apply py_max_upper; [exact H40 | apply py_min_upper].
    + rewrite Hs.
      destruct (Py.ltb _ _) eqn:E; [discriminate|].
      intros _. now apply ltb_ge in E.
  - assert (Hg : status l <> flying).
    { intros E. rewrite E in Es. discriminate. }
    rewrite update_grounded by exact Hg. cbn [fst].
    unfold in_play. Flight.fields.
    repeat split; try assumption; try lra; tauto.
Qed.

Lemma frame_in_play vm (keys : Keys) (dt : Q) (pad : LandingPad.t)
    (g : Random.Rng) (l : t) :
  0 <= dt -> 0 <= fuel_burn_rate (config l) ->
  (80 <= fst (screen_size (config l)))%Z ->
  in_play l ->
  config (fst (frame vm keys dt pad g l)) = config l /\
  in_play (fst (frame vm keys dt pad g l)).
Proof.
  intros Hdt Hburn Hw Hin. unfold frame.
  destruct (Flight.handle_input_fields keys dt l)
    as (Hc & Hp & _ & Hfu & Hps & Hs & _).
  set (l1 := handle_input keys dt l) in *.
  assert (Hin1 : in_play l1).
  { unfold in_play in *. rewrite Hc, Hp, Hfu, Hps, Hs. exact Hin. }
  rewrite <- Hc in Hburn, Hw.
  pose proof (update_in_play vm dt g l1 Hdt Hburn Hw Hin1) as Hin2.
  pose proof (Flight.update_config vm dt g l1) as Hc2.
  destruct (update vm dt g l1) as [l2 g2]. cbn [fst] in *.
  destruct (check_landing_cases pad l2) as [E | (_ & s & Hs' & E)];
    rewrite E.
  - split; [congruence | exact Hin2].
  - split; [cbn; congruence|].
    unfold in_play in *. Flight.fields.
    destruct Hin2 as (Ha & Hb & Hx & _).
    repeat split; try tauto.
Qed.

(** X6.  The main loop keeps the lander in play: for time steps that
    are not negative, a burn rate that is not negative and a screen at
    least 80 wide, a lander with [0 <= fuel <= fuel_capacity], live
    particles only, [40 <= position.x <= screen_width - 40] and, while
    flying, [position.y <= screen_height + 80] has all of this again after
    any sequence of frames; its configuration is never changed. *)
Theorem frames_keep_lander_in_play vm (pad : LandingPad.t)
    (frames : list (Keys * Q)) : forall (g : Random.Rng) (l : t),
  Forall (fun f => 0 <= snd f) frames ->
  0 <= fuel_burn_rate (config l) ->
  (80 <= fst (screen_size (config l)))%Z ->
  in_play l ->
  config (fst (run vm frames pad g l)) = config l /\
  in_play (fst (run vm frames pad g l)).
Proof.
  induction frames as [|[keys dt] rest IH]; intros g l Hdts Hburn Hw Hin;
    cbn [run fst].
  - split; [reflexivity | exact Hin].
  - inversion Hdts as [|? ? Hdt Hrest]; subst. cbn [snd] in Hdt.
    destruct (frame_in_play vm keys dt pad g l Hdt Hburn Hw Hin) as [Hc Hin1].
    destruct (frame vm keys dt pad g l) as [l1 g1]. cbn [fst] in *.
    rewrite <- Hc in Hburn, Hw.
    destruct (IH g1 l1 Hrest Hburn Hw Hin1) as [Hc' Hin'].
    split; [congruence | exact Hin'].
Qed.

Lemma frames_keep_lander_in_play_witness :
  Forall (fun f : Keys * Q => 0 <= snd f) approach /\
  0 <= fuel_burn_rate (config spawn) /\
  (80 <= fst (screen_size (config spawn)))%Z /\
  in_play spawn /\
  in_play (fst (run axis_methods approach centre_pad half_rng spawn)).
Proof.
  assert (Hdts : Forall (fun f : Keys * Q => 0 <= snd f) approach).
  { unfold approach. repeat (constructor; [vm_compute; discriminate|]).
    constructor. }
  assert (Hb : 0 <= fuel_burn_rate (config spawn)) by (vm_compute; discriminate).
  assert (Hw : (80 <= fst (screen_size (config spawn)))%Z)
    by (vm_compute; discriminate).
  assert (Hin : in_play spawn).
  { apply init_in_play; [| split |]; vm_compute; discriminate. }
  repeat (split; [assumption|]).
  exact (proj2 (frames_keep_lander_in_play axis_methods centre_pad approach
                  half_rng spawn Hdts Hb Hw Hin)).
Defined.

End Coasting.

(** ** Truncation to integers *)

Lemma int_mono (p q : Q) : p <= q -> (Py.int p <= Py.int q)%Z.
Proof.
  destruct p as [a b], q as [c d]. unfold Qle, Py.int. cbn [Qnum Qden].
  intros H.
  rewrite <- (Z.quot_mul_cancel_r a (Zpos b) (Zpos d)) by discriminate.
  rewrite <- (Z.quot_mul_cancel_r c (Zpos d) (Zpos b)) by discriminate.
  rewrite (Z.mul_comm (Zpos d) (Zpos b)).
  apply Z.quot_le_mono; [reflexivity | exact H].
Qed.

Lemma int_inject (z : Z) : Py.int (inject_Z z) = z.
Proof. unfold Py.int, inject_Z. cbn [Qnum Qden]. apply Z.quot_1_r. Qed.

Lemma int_lower (q : Q) (lo : Z) : inject_Z lo <= q -> (lo <= Py.int q)%Z.
Proof. intros H. rewrite <- (int_inject lo). now apply int_mono. Qed.

Lemma int_upper (q : Q) (hi : Z) : q <= inject_Z hi -> (Py.int q <= hi)%Z.
Proof. intros H. rewrite <- (int_inject hi). now apply int_mono. Qed.

Lemma int_between (q : Q) (lo hi : Z) :
  inject_Z lo <= q -> q <= inject_Z hi -> (lo <= Py.int q <= hi)%Z.
Proof. intros Hlo Hhi. split; [now apply int_lower | now apply int_upper]. Qed.

Lemma int_of_eq (q : Q) (z : Z) : q == inject_Z z -> Py.int q = z.
Proof.
  intros E. destruct (int_between q z z); [lra | lra | lia].
Qed.

Lemma zmax_lower (a b : Z) : (a <= Py.zmax a b)%Z.
Proof. unfold Py.zmax. destruct (Z.ltb_spec a b); lia. Qed.

Lemma zmax_upper (a b c : Z) : (a <= c -> b <= c -> Py.zmax a b <= c)%Z.
Proof. unfold Py.zmax. destruct (Z.ltb_spec a b); lia. Qed.

Lemma zmin_upper (a b : Z) : (Py.zmin a b <= a)%Z.
Proof. unfold Py.zmin. destruct (Z.ltb_spec b a); lia. Qed.

Lemma zmin_lower (a b c : Z) : (c <= a -> c <= b -> c <= Py.zmin a b)%Z.
Proof. unfold Py.zmin. destruct (Z.ltb_spec b a); lia. Qed.

(** ** Particles *)

Module Particles.
Import Lander LanderFacts.

(** X8.  [Particle.draw] paints nothing exactly when the lifetime is at
    most 0.  What it paints has the particle's colour with an alpha
    between 0 and 255 (255 as long as a second or more of lifetime is
    left) and a radius of at least one pixel, also for a particle whose
    size has shrunk to nothing. *)
Theorem particle_draw_bounds (p : Particle.t) :
  (Particle.draw p = None <-> Particle.lifetime p <= 0) /\
  forall glow, Particle.draw p = Some glow ->
    let '(r, g, b, a) := Particle.glow_color glow in
    (r, g, b) = Particle.color p /\
    (0 <= a <= 255)%Z /\
    (1 <= Particle.lifetime p -> a = 255%Z) /\
    (1 <= Particle.glow_radius glow)%Z.
Proof.
  unfold Particle.draw.
  destruct (Qle_bool (Particle.lifetime p) 0) eqn:E.
  - apply Qle_bool_iff in E. split; [tauto | discriminate].
  - assert (Hpos : ~ Particle.lifetime p <= 0).
    { intros H. apply Qle_bool_iff in H. congruence. }
    destruct (Particle.color p) as [[r g] b].
    split; [split; [discriminate | intros H; contradiction]|].
    intros glow [= <-]. cbn [Particle.glow_color Particle.glow_radius].
    split; [reflexivity|].
    split; [|split].
    + split; [apply zmax_lower|].
      apply zmax_upper; [lia | apply zmin_upper].
    + intros H1.
      assert (H255 : (255 <= Py.int (255 * Particle.lifetime p))%Z).
      { change 255%Z with (Py.int 255) at 1. apply int_mono. lra. }
      unfold Py.zmax, Py.zmin.
      destruct (Z.ltb_spec (Py.int (255 * Particle.lifetime p)) 255); [lia|].
      reflexivity.
    + apply zmax_lower.
Qed.

End Particles.

(** ** The landing pad *)

Module Pad.
Import Lander LanderFacts.

(** X9.  For a pad of non-negative width and height, the landing
    evaluation of [check_landing] is triggered exactly when the lander's
    truncated centre lies in a window around the pad: strictly within 41
    pixels of the pad's horizontal extent, and vertically from 21 pixels
    above the pad's top down to less than 27 pixels below its bottom.  A
    flying lander whose centre is outside this window, above or already
    below it, is returned unchanged. *)
Theorem landing_window (pad : LandingPad.t) (l : t) :
  let r := LandingPad.rect pad in
  let ix := Py.int (Vector2.x (position l)) in
  let iy := Py.int (Vector2.y (position l)) in
  (0 <= Rect.w r)%Z -> (0 <= Rect.h r)%Z ->
  (touches_pad l pad = true <->
   (Rect.x r - 41 < ix < Rect.x r + Rect.w r + 41)%Z /\
   (Rect.y r - 21 <= iy < Rect.y r + Rect.h r + 27)%Z) /\
  ((iy < Rect.y r - 21 \/ Rect.y r + Rect.h r + 27 <= iy)%Z ->
   check_landing pad l = l).
Proof.
  intros r ix iy Hw Hh.
  assert (Hiff : touches_pad l pad = true <->
                 (Rect.x r - 41 < ix < Rect.x r + Rect.w r + 41)%Z /\
                 (Rect.y r - 21 <= iy < Rect.y r + Rect.h r + 27)%Z).
  { unfold touches_pad, lander_rect, Rect.colliderect, Rect.inflate,
      Rect.set_center, Rect.top, Rect.bottom.
    fold r ix iy. cbn [Rect.x Rect.y Rect.w Rect.h].
    change (Z.shiftr 42 1) with 21%Z.
    change (Z.quot 40 2) with 20%Z. change (Z.quot 12 2) with 6%Z.
    change (42 =? 0)%Z with false. cbn [orb].
    destruct (Z.eqb_spec (Rect.w r + 40) 0); [lia|].
    destruct (Z.eqb_spec (Rect.h r + 12) 0); [lia|].
    cbn [orb].
    rewrite !andb_true_iff, !Z.ltb_lt, Z.leb_le. lia. }
  split; [exact Hiff|].
  intros Hout. unfold check_landing.
  destruct (negb (Status_eqb (status l) flying)); [reflexivity|].
  destruct (touches_pad l pad); [|reflexivity].
  pose proof (proj1 Hiff eq_refl). lia.
Qed.

Lemma landing_window_witness :
  (0 <= Rect.w (LandingPad.rect centre_pad))%Z /\
  (0 <= Rect.h (LandingPad.rect centre_pad))%Z /\
  touches_pad final_descent centre_pad = true.
Proof.
  assert (Hw : (0 <= Rect.w (LandingPad.rect centre_pad))%Z)
    by (vm_compute; discriminate).
  assert (Hh : (0 <= Rect.h (LandingPad.rect centre_pad))%Z)
    by (vm_compute; discriminate).
  split; [exact Hw|]. split; [exact Hh|].
  apply (proj1 (landing_window centre_pad final_descent Hw Hh)).
  vm_compute. repeat split; discriminate.
Defined.

(** X10.  [LandingPad(config)] with the horizontal centre drawn from
    the range the constructor hands to [random.randint] yields a pad of the
    configured size whose left edge is at least 40 pixels from the left
    border and whose right edge is at least 40 pixels from the right one
    (39 for an odd pad width), with its top at
    [height - 6 * pad_height - pad_height // 2]; its centre lies in the
    interval to which [update] clamps the lander. *)
Theorem pad_placement (config : GameConfig) (x : Z) :
  (0 <= landing_pad_width config)%Z ->
  (LandingPad.x_low config <= x <= LandingPad.x_high config)%Z ->
  let pad := LandingPad.init config x in
  let width := fst (screen_size config) in
  Rect.w (LandingPad.rect pad) = landing_pad_width config /\
  Rect.h (LandingPad.rect pad) = landing_pad_height config /\
  (40 <= Rect.x (LandingPad.rect pad))%Z /\
  (LandingPad.right pad <= width - 40 + landing_pad_width config mod 2)%Z /\
  Rect.top (LandingPad.rect pad)
    = (snd (screen_size config) - landing_pad_height config * 6
       - landing_pad_height config / 2)%Z /\
  (40 <= x <= width - 40)%Z /\
  LandingPad.timer pad = 0.
Proof.
  intros Hw [Hlo Hhi] pad width.
  unfold pad, LandingPad.init, LandingPad.right, LandingPad.x_low,
    LandingPad.x_high, Rect.set_center, Rect.top in *.
  cbn [LandingPad.rect LandingPad.timer Rect.x Rect.y Rect.w Rect.h].
  fold width in Hhi.
  rewrite !Z.shiftr_div_pow2 by lia. change (2 ^ 1)%Z with 2%Z.
  pose proof (Z.div_mod (landing_pad_width config) 2 ltac:(lia)) as Hdm.
  pose proof (Z.mod_pos_bound (landing_pad_width config) 2 ltac:(lia)) as Hm.
  assert (Hq : (0 <= landing_pad_width config / 2)%Z)
    by (apply Z.div_pos; lia).
  repeat split; lia.
Qed.

Lemma pad_placement_witness :
  (0 <= landing_pad_width GameConfig_default)%Z /\
  (LandingPad.x_low GameConfig_default <= 480
   <= LandingPad.x_high GameConfig_default)%Z /\
  (40 <= Rect.x (LandingPad.rect centre_pad))%Z.
Proof.
  assert (Hw : (0 <= landing_pad_width GameConfig_default)%Z)
    by (vm_compute; discriminate).
  assert (Hx : (LandingPad.x_low GameConfig_default <= 480
                <= LandingPad.x_high GameConfig_default)%Z)
    by (split; vm_compute; discriminate).
  split; [exact Hw|]. split; [exact Hx|].
  exact (proj1 (proj2 (proj2 (pad_placement GameConfig_default 480 Hw Hx)))).
Defined.

(** X19.  The landing evaluation fires at most once per flight:
    repeating [check_landing] against the same pad changes nothing, and
    once it has ended the flight the result is returned unchanged by
    [check_landing] against any pad, status and timer included. *)
Theorem check_landing_once (pad : LandingPad.t) (l : t) :
  check_landing pad (check_landing pad l) = check_landing pad l /\
  (status (check_landing pad l) <> flying ->
   forall pad', check_landing pad' (check_landing pad l) = check_landing pad l).
Proof.
  split.
  - destruct (Coasting.check_landing_cases pad l) as [E | (_ & s & Hs & E)].
    + now rewrite !E.
    + rewrite E. apply check_landing_grounded. exact Hs.
  - intros H pad'. now apply check_landing_grounded.
Qed.

Lemma check_landing_once_witness :
  status (check_landing centre_pad final_descent) <> flying /\
  check_landing (LandingPad.init GameConfig_default 300)
                (check_landing centre_pad final_descent)
    = check_landing centre_pad final_descent.
Proof.
  assert (H : status (check_landing centre_pad final_descent) <> flying)
    by (vm_compute; discriminate).
  split; [exact H|].
  exact (proj2 (check_landing_once centre_pad final_descent) H
               (LandingPad.init GameConfig_default 300)).
Defined.

End Pad.

(** ** The heads-up display *)

Module HudFacts.

Lemma int_floor (q : Q) : 0 <= q -> Py.int q = Qfloor q.
Proof.
  destruct q as [a b]. unfold Qle, Py.int, Qfloor. cbn [Qnum Qden].
  intros H. apply Z.quot_div_nonneg; lia.
Qed.

(** X11.  The filled part of the fuel bar of [draw_hud] is
    [int(600 * fuel / fuel_capacity)].  For a positive capacity and a fuel
    level within the tank it is between 0 and 600 pixels, 600 for a full
    tank and 0 for an empty one; for a capacity of zero the division
    fails. *)
Theorem fuel_bar_fits (l : Lander.t) (config : GameConfig) :
  (fuel_capacity config == 0 -> Hud.fuel_bar l config = None) /\
  (0 < fuel_capacity config ->
   0 <= Lander.fuel l <= fuel_capacity config ->
   exists w, Hud.fuel_bar l config = Some w /\ (0 <= w <= 600)%Z /\
             (Lander.fuel l == fuel_capacity config -> w = 600%Z) /\
             (Lander.fuel l == 0 -> w = 0%Z)).
Proof.
  unfold Hud.fuel_bar. split.
  - intros H. apply Qeq_bool_iff in H. now rewrite H.
  - intros Hcap [H0 H1].
    destruct (Qeq_bool (fuel_capacity config) 0) eqn:E.
    { apply Qeq_bool_iff in E. lra. }
    set (r := Lander.fuel l / fuel_capacity config).
    assert (Hr : r * fuel_capacity config == Lander.fuel l).
    { unfold r. field. lra. }
    assert (Hr0 : 0 <= r).
    { unfold r. apply Qle_shift_div_l; [exact Hcap | lra]. }
    assert (Hr1 : r <= 1).
    { unfold r. apply Qle_shift_div_r; [exact Hcap | lra]. }
    exists (Py.int (600 * r)). split; [reflexivity|].
    split; [|split].
    + apply int_between.
      * change (inject_Z 0) with 0. lra.
      * change (inject_Z 600) with 600. lra.
    + intros Hfull.
      assert (E1 : r == 1).
      { unfold r. rewrite Hfull. field. lra. }
      apply int_of_eq. change (inject_Z 600) with 600. lra.
    + intros Hempty.
      assert (E0 : r == 0).
      { unfold r. rewrite Hempty. field. lra. }
      apply int_of_eq. change (inject_Z 0) with 0. lra.
Qed.

(** X12.  The banner of [draw_hud] is always drawn once the lander has
    landed or crashed; while it flies (and the elapsed time is not
    negative) it is drawn during the even seconds only, that is, exactly
    when [2k <= elapsed < 2k + 1] for a whole number [k]. *)
Theorem banner_blinks (l : Lander.t) (elapsed : Q) :
  (Lander.status l <> flying -> Hud.banner_visible l elapsed = true) /\
  (Lander.status l = flying -> 0 <= elapsed ->
   (Hud.banner_visible l elapsed = true <->
    exists k, (0 <= k)%Z /\
              inject_Z (2 * k) <= elapsed /\ elapsed < inject_Z (2 * k + 1))).
Proof.
  unfold Hud.banner_visible. split.
  - intros H. now rewrite (not_flying_guard _ H).
  - intros Hf He. rewrite (flying_guard _ Hf). cbn [orb].
    rewrite (int_floor elapsed He), Z.eqb_eq.
    pose proof (Qfloor_le elapsed) as Hlo.
    pose proof (Qlt_floor elapsed) as Hhi.
    set (n := Qfloor elapsed) in *.
    assert (Hn : (0 <= n)%Z).
    { assert (H : inject_Z (-1) < inject_Z n).
      { rewrite inject_Z_plus in Hhi. change (inject_Z 1) with 1 in Hhi.
        change (inject_Z (-1)) with (-1). lra. }
      rewrite <- Zlt_Qlt in H. lia. }
    split.
    + intros Hm. exists (n / 2)%Z.
      pose proof (Z.div_mod n 2 ltac:(lia)) as Hdm.
      assert (E : (2 * (n / 2) = n)%Z) by lia.
      split; [apply Z.div_pos; lia|].
      rewrite E. split; assumption.
    + intros (k & Hk & H1 & H2).
      assert (E : n = (2 * k)%Z).
      { assert (A : inject_Z (2 * k) < inject_Z (n + 1)) by lra.
        assert (B : inject_Z n < inject_Z (2 * k + 1)) by lra.
        rewrite <- Zlt_Qlt in A, B. lia. }
      rewrite E, Z.mul_comm. apply Z.mod_mul. lia.
Qed.

Lemma fuel_bar_fits_witness :
  0 < fuel_capacity GameConfig_default /\
  0 <= Lander.fuel touchdown <= fuel_capacity GameConfig_default /\
  exists w, Hud.fuel_bar touchdown GameConfig_default = Some w /\
            (0 <= w <= 600)%Z.
Proof.
  assert (Hc : 0 < fuel_capacity GameConfig_default) by reflexivity.
  assert (Hf : 0 <= Lander.fuel touchdown <= fuel_capacity GameConfig_default)
    by (split; vm_compute; discriminate).
  split; [exact Hc|]. split; [exact Hf|].
  destruct (proj2 (fuel_bar_fits touchdown GameConfig_default) Hc Hf)
    as (w & E & Hw & _).
  exists w. split; [exact E | exact Hw].
Defined.

Lemma banner_blinks_witness :
  Lander.status spawn = flying /\ 0 <= 5 # 2 /\
  Hud.banner_visible spawn (5 # 2) = true.
Proof.
  assert (Hf : Lander.status spawn = flying) by reflexivity.
  assert (He : 0 <= 5 # 2) by (vm_compute; discriminate).
  split; [exact Hf|]. split; [exact He|].
  apply (proj2 (banner_blinks spawn (5 # 2)) Hf He).
  exists 1%Z. repeat split; vm_compute; try discriminate; reflexivity.
Defined.

End HudFacts.

(** ** Random draws *)

Lemma unit_next (g : Random.Rng) : Random.unit g -> Random.unit (Random.next g).
Proof. intros H n. apply H. Qed.

Lemma uniform_between (a b : Q) (g : Random.Rng) :
  Random.unit g -> a <= b ->
  a <= fst (Random.uniform a b g) <= b /\
  Random.unit (snd (Random.uniform a b g)).
Proof.
  intros Hg Hab. unfold Random.uniform. cbn [fst snd].
  destruct (Hg O) as [H0 H1].
  assert (Hp : 0 <= (b - a) * g O) by (apply Qmult_le_0_compat; lra).
  assert (Hq : (b - a) * g O <= (b - a) * 1).
  { rewrite !(Qmult_comm (b - a)). apply Qmult_le_compat_r; lra. }
  split; [split; lra | now apply unit_next].
Qed.

(** ** The star field *)

Module Stars.
Import Starfield.

Lemma build_loop_spec (P : Star -> Prop) (width height : Z) :
  (0 <= width)%Z -> (0 <= height)%Z ->
  (forall s, on_screen width height s -> 5 <= snd s <= 20 -> P s) ->
  forall (n : nat) (g : Random.Rng) (stars : list Star),
  Random.unit g -> Forall P stars ->
  let r := build_loop n width height g stars in
  List.length (fst r) = (List.length stars + n)%nat /\
  Forall P (fst r) /\ Random.unit (snd r).
Proof.
  intros Hw Hh HP.
  assert (Hw' : 0 <= inject_Z width)
    by (change 0 with (inject_Z 0); now rewrite <- Zle_Qle).
  assert (Hh' : 0 <= inject_Z height)
    by (change 0 with (inject_Z 0); now rewrite <- Zle_Qle).
  induction n as [|n IH]; intros g stars Hg Hs; cbn [build_loop].
  - cbn [fst snd]. split; [lia | split; [exact Hs | exact Hg]].
  - destruct (uniform_between 0 (inject_Z width) g Hg Hw') as [Hx Hg1].
    destruct (Random.uniform 0 (inject_Z width) g) as [px g1].
    cbn [fst snd] in Hx, Hg1.
    destruct (uniform_between 0 (inject_Z height) g1 Hg1 Hh') as [Hy Hg2].
    destruct (Random.uniform 0 (inject_Z height) g1) as [py g2].
    cbn [fst snd] in Hy, Hg2.
    destruct (uniform_between 5 20 g2 Hg2 ltac:(lra)) as [Hv Hg3].
    destruct (Random.uniform 5 20 g2) as [speed g3].
    cbn [fst snd] in Hv, Hg3.
    destruct (IH g3 (stars ++ [(Vector2.mk px py, speed)]) Hg3)
      as (Hlen & Hall & Hg').
    + apply Forall_app. split; [exact Hs|].
      constructor; [|constructor]. apply HP; [split|]; assumption.
    + rewrite length_app in Hlen. cbn [List.length] in Hlen.
      split; [lia | split; [exact Hall | exact Hg']].
Qed.

(** X13.  [build_starfield] creates [star_count] stars (none for a
    negative count); with random values from the unit interval every star
    lies on the screen and falls at a speed between 5 and 20. *)
Theorem starfield_built (config : GameConfig) (g : Random.Rng) :
  Random.unit g ->
  (0 <= fst (screen_size config))%Z -> (0 <= snd (screen_size config))%Z ->
  let stars := fst (build_starfield config g) in
  List.length stars = Z.to_nat (star_count config) /\
  Forall (fun s => on_screen (fst (screen_size config))
                             (snd (screen_size config)) s /\
                   5 <= snd s <= 20) stars /\
  Random.unit (snd (build_starfield config g)).
Proof.
  intros Hg Hw Hh. unfold build_starfield.
  destruct (screen_size config) as [width height]. cbn [fst snd] in *.
  apply (build_loop_spec
           (fun s => on_screen width height s /\ 5 <= snd s <= 20)
           width height Hw Hh (fun s A B => conj A B)
           (Z.to_nat (star_count config)) g [] Hg (Forall_nil _)).
Qed.

Lemma starfield_built_witness :
  Random.unit half_rng /\
  (0 <= fst (screen_size GameConfig_default))%Z /\
  (0 <= snd (screen_size GameConfig_default))%Z /\
  List.length (fst (build_starfield GameConfig_default half_rng))
    = Z.to_nat (star_count GameConfig_default).
Proof.
  assert (Hg : Random.unit half_rng).
  { intros n. split; vm_compute; discriminate. }
  assert (Hw : (0 <= fst (screen_size GameConfig_default))%Z)
    by (vm_compute; discriminate).
  assert (Hh : (0 <= snd (screen_size GameConfig_default))%Z)
    by (vm_compute; discriminate).
  repeat (split; [assumption|]).
  exact (proj1 (starfield_built GameConfig_default half_rng Hg Hw Hh)).
Defined.

(** One star of [draw_starfield]. *)
Lemma draw_star_spec (width height : Z) (dt : Q) (s : Star) (g : Random.Rng) :
  Random.unit g -> 0 <= dt -> (0 <= width)%Z -> (0 <= height)%Z ->
  on_screen width height s -> 0 <= snd s ->
  let r := draw_star width height dt s g in
  let s' := fst (fst r) in
  let f := snd (fst r) in
  snd s' = snd s /\ on_screen width height s' /\ Random.unit (snd r) /\
  (let '(x, y, w, h) := fill_rect f in
   (0 <= x <= width /\ 0 <= y <= height /\ w = 2 /\ h = 2)%Z) /\
  (let '(c, gr, b) := fill_color f in
   (120 <= c <= 255 /\ gr = 0 /\ b = c)%Z).
Proof.
  intros Hg Hdt Hw Hh [[Hx0 Hx1] [Hy0 Hy1]] Hv.
  destruct s as [[px py] speed]. cbn [fst snd Vector2.x Vector2.y] in *.
  assert (Hw' : 0 <= inject_Z width)
    by (change 0 with (inject_Z 0); now rewrite <- Zle_Qle).
  assert (Hh' : 0 <= inject_Z height)
    by (change 0 with (inject_Z 0); now rewrite <- Zle_Qle).
  assert (Hmove : 0 <= speed * dt) by (apply Qmult_le_0_compat; assumption).
  assert (Hcol : (120 <= Py.zmin 255 (Py.int (120 + speed * 2)) <= 255)%Z).
  { split; [|apply zmin_upper].
    apply zmin_lower; [lia|].
    apply int_lower. change (inject_Z 120) with 120. lra. }
  unfold draw_star. cbn [Vector2.x Vector2.y].
  destruct (Py.ltb (inject_Z height) (py + speed * dt)) eqn:E.
  - destruct (uniform_between 0 (inject_Z width) g Hg Hw') as [Hn Hg1].
    destruct (Random.uniform 0 (inject_Z width) g) as [nx g1].
    cbn [fst snd Vector2.x Vector2.y fill_rect fill_color on_screen] in *.
    unfold on_screen. cbn [fst snd Vector2.x Vector2.y].
    split; [reflexivity|].
    split; [split; [exact Hn | split; [lra | exact Hh']]|].
    split; [exact Hg1|].
    split; [|split; [exact Hcol | split; reflexivity]].
    split; [|split; [|split; reflexivity]].
    + split; [apply int_lower | apply int_upper];
        [change (inject_Z 0) with 0|]; lra.
    + split; [apply int_lower | apply int_upper];
        [change (inject_Z 0) with 0; lra | exact Hh'].
  - apply ltb_ge in E.
    cbn [fst snd Vector2.x Vector2.y fill_rect fill_color].
    unfold on_screen. cbn [fst snd Vector2.x Vector2.y].
    split; [reflexivity|].
    split; [split; [split; assumption | split; [lra | exact E]]|].
    split; [exact Hg|].
    split; [|split; [exact Hcol | split; reflexivity]].
    split; [|split; [|split; reflexivity]].
    + split; [apply int_lower | apply int_upper];
        [change (inject_Z 0) with 0|]; lra.
    + split; [apply int_lower | apply int_upper];
        [change (inject_Z 0) with 0; lra | exact E].
Qed.

(** The stars after [draw_starfield], as the main loop needs them. *)
Lemma draw_starfield_stars (width height : Z) (dt : Q)
    (stars : list Star) : forall (g : Random.Rng),
  Random.unit g -> 0 <= dt -> (0 <= width)%Z -> (0 <= height)%Z ->
  Forall (fun s => on_screen width height s /\ 0 <= snd s) stars ->
  let r := draw_starfield width height stars dt g in
  map snd (fst (fst r)) = map snd stars /\
  Forall (on_screen width height) (fst (fst r)) /\
  Random.unit (snd r).
Proof.
  induction stars as [|s rest IH]; intros g Hg Hdt Hw Hh Hall;
    cbn [draw_starfield].
  - cbn [fst snd map]. split; [reflexivity|]. split; [constructor | exact Hg].
  - inversion Hall as [|? ? [Hon Hv] Hrest]; subst.
    pose proof (draw_star_spec width height dt s g Hg Hdt Hw Hh Hon Hv) as Hs.
    destruct (draw_star width height dt s g) as [[s' f] g1].
    cbn [fst snd] in Hs. destruct Hs as (Hsp & Hon' & Hg1 & _).
    specialize (IH g1 Hg1 Hdt Hw Hh Hrest).
    destruct (draw_starfield width height rest dt g1) as [[rest' fs] g2].
    cbn [fst snd] in *. destruct IH as (Hm & Ho & Hg2).
    cbn [map].
    split; [congruence|]. split; [now constructor | exact Hg2].
Qed.

(** X14.  [draw_starfield] keeps the star field within the closed
    rectangle of the surface: with a time step that is not negative,
    random values from the unit interval and a surface whose sizes are not
    negative, stars with [0 <= x <= width] and [0 <= y <= height] that do
    not fall upwards satisfy the same bounds after the call, are as many as
    before and have their speeds unchanged (a star that passed the bottom
    edge is back at [y = 0]).  One 2 x 2 block is painted per star, with
    its corner at integer coordinates [0 <= x <= width] and
    [0 <= y <= height], in a colour [(c, 0, c)] with [120 <= c <= 255].
    Both upper bounds are closed: the recycling test of line 265 is
    [position.y > height], so a star that sits exactly at [y = height]
    stays there and its block is painted at row [height], just below the
    last row of pixels. *)
Theorem starfield_stays_on_screen (width height : Z) (dt : Q)
    (stars : list Star) : forall (g : Random.Rng),
  Random.unit g -> 0 <= dt -> (0 <= width)%Z -> (0 <= height)%Z ->
  Forall (fun s => on_screen width height s /\ 0 <= snd s) stars ->
  let r := draw_starfield width height stars dt g in
  let stars' := fst (fst r) in
  let fills := snd (fst r) in
  map snd stars' = map snd stars /\
  Forall (on_screen width height) stars' /\
  List.length fills = List.length stars /\
  Forall (fun f => let '(x, y, w, h) := fill_rect f in
                   (0 <= x <= width /\ 0 <= y <= height /\ w = 2 /\ h = 2)%Z)
         fills /\
  Forall (fun f => let '(c, gr, b) := fill_color f in
                   (120 <= c <= 255 /\ gr = 0 /\ b = c)%Z) fills /\
  Random.unit (snd r).
Proof.
  induction stars as [|s rest IH]; intros g Hg Hdt Hw Hh Hall;
    cbn [draw_starfield].
  - cbn [fst snd map List.length].
    split; [reflexivity|]. split; [constructor|]. split; [reflexivity|].
    split; [constructor|]. split; [constructor | exact Hg].
  - inversion Hall as [|? ? [Hon Hv] Hrest]; subst.
    pose proof (draw_star_spec width height dt s g Hg Hdt Hw Hh Hon Hv) as Hs.
    destruct (draw_star width height dt s g) as [[s' f] g1].
    cbn [fst snd] in Hs. destruct Hs as (Hsp & Hon' & Hg1 & Hrect & Hcol).
    specialize (IH g1 Hg1 Hdt Hw Hh Hrest).
    destruct (draw_starfield width height rest dt g1) as [[rest' fs] g2].
    cbn [fst snd] in *. destruct IH as (Hm & Ho & Hl & Hr & Hc & Hg2).
    cbn [map List.length].
    split; [congruence|]. split; [now constructor|]. split; [congruence|].
    split; [now constructor|]. split; [now constructor | exact Hg2].
Qed.

Lemma starfield_stays_on_screen_witness :
  let stars := [(Vector2.mk 10 715, 12); (Vector2.mk 200 300, 5)] in
  Random.unit half_rng /\ 0 <= 1 /\ (0 <= 960)%Z /\ (0 <= 720)%Z /\
  Forall (fun s => on_screen 960 720 s /\ 0 <= snd s) stars /\
  Forall (on_screen 960 720)
         (fst (fst (draw_starfield 960 720 stars 1 half_rng))).
Proof.
  intros stars.
  assert (Hg : Random.unit half_rng).
  { intros n. split; vm_compute; discriminate. }
  assert (Hdt : 0 <= 1) by (vm_compute; discriminate).
  assert (Hw : (0 <= 960)%Z) by lia.
  assert (Hh : (0 <= 720)%Z) by lia.
  assert (Hall : Forall (fun s => on_screen 960 720 s /\ 0 <= snd s) stars).
  { repeat (constructor; [repeat split; vm_compute; discriminate|]).
    constructor. }
  repeat (split; [assumption|]).
  exact (proj1 (proj2 (starfield_stays_on_screen 960 720 1 stars half_rng
                         Hg Hdt Hw Hh Hall))).
Defined.

End Stars.

(** ** The thruster tone *)

Module Tone.
Import Sound.

Lemma fill_waveform_spec (m : Math.Functions) :
  (forall x, -1 <= Math.sin m x <= 1) ->
  forall (n : nat) (i : Z) (waveform : list Z),
  Forall (fun v => (-9830 <= v <= 9830)%Z) waveform ->
  exists samples,
    fill_waveform m n i waveform = Some samples /\
    List.length samples = (List.length waveform + n)%nat /\
    Forall (fun v => (-9830 <= v <= 9830)%Z) samples.
Proof.
  intros Hsin. induction n as [|n IH]; intros i waveform Hw;
    cbn [fill_waveform].
  - exists waveform. split; [reflexivity | split; [lia | exact Hw]].
  - set (x := 2 * Math.pi m * 220 * (inject_Z i / 44100)).
    destruct (Hsin x) as [Hlo Hhi].
    assert (Hv : (-9830 <= Py.int (32767 * 0.3 * Math.sin m x) <= 9830)%Z).
    { split.
      - apply Z.le_trans with (Py.int (- (98301 # 10)));
          [vm_compute; discriminate | apply int_mono; lra].
      - apply Z.le_trans with (Py.int (98301 # 10));
          [apply int_mono; lra | vm_compute; discriminate]. }
    assert (Hfit : fits_int16 (Py.int (32767 * 0.3 * Math.sin m x)) = true).
    { unfold fits_int16. rewrite andb_true_iff, !Z.leb_le. lia. }
    rewrite Hfit.
    destruct (IH (i + 1)%Z (waveform ++ [Py.int (32767 * 0.3 * Math.sin m x)]))
      as (samples & E & Hlen & Hall).
    + apply Forall_app. split; [exact Hw|]. constructor; [exact Hv|constructor].
    + exists samples. rewrite length_app in Hlen. cbn [List.length] in Hlen.
      split; [exact E | split; [lia | exact Hall]].
Qed.

(** X15.  For a sine with values in [-1, 1], [create_thruster_sound]
    never overflows the signed 16-bit samples of its buffer: it returns
    11025 samples (a quarter of a second at 44100 Hz), each between -9830
    and 9830. *)
Theorem thruster_tone_fits (m : Math.Functions) :
  (forall x, -1 <= Math.sin m x <= 1) ->
  exists samples,
    create_thruster_sound m = Some samples /\
    Z.of_nat (List.length samples) = 11025%Z /\
    Forall (fun v => (-9830 <= v <= 9830)%Z) samples.
Proof.
  intros Hsin. unfold create_thruster_sound.
  change (Py.int (inject_Z 44100 * 0.25)) with 11025%Z.
  destruct (fill_waveform_spec m Hsin (Z.to_nat 11025) 0 [] (Forall_nil _))
    as (samples & E & Hlen & Hall).
  exists samples. split; [exact E|]. split; [|exact Hall].
  rewrite Hlen. cbn [List.length]. lia.
Qed.

Lemma triangle_bounded (x : Q) : -1 <= Math.sin triangle_math x <= 1.
Proof.
  cbn [Math.sin triangle_math].
  set (q := x / (2 * (22 # 7))).
  assert (Hu : 0 <= Py.fmod q 1 /\ Py.fmod q 1 < 1).
  { unfold Py.fmod.
    assert (Hq : q / 1 == q) by (field).
    pose proof (Qfloor_le (q / 1)) as Hlo.
    pose proof (Qlt_floor (q / 1)) as Hhi.
    rewrite inject_Z_plus in Hhi. change (inject_Z 1) with 1 in Hhi.
    split; lra. }
  destruct Hu as [H0 H1].
  destruct (Qle_bool (Py.fmod q 1) (1 # 4)) eqn:E1.
  - apply Qle_bool_iff in E1. split; lra.
  - assert (N1 : ~ Py.fmod q 1 <= 1 # 4).
    { intros H. apply Qle_bool_iff in H. congruence. }
    destruct (Qle_bool (Py.fmod q 1) (3 # 4)) eqn:E2.
    + apply Qle_bool_iff in E2. split; lra.
    + assert (N2 : ~ Py.fmod q 1 <= 3 # 4).
      { intros H. apply Qle_bool_iff in H. congruence. }
      split; lra.
Qed.

Lemma thruster_tone_fits_witness :
  exists samples,
    create_thruster_sound triangle_math = Some samples /\
    Z.of_nat (List.length samples) = 11025%Z /\
    Forall (fun v => (-9830 <= v <= 9830)%Z) samples.
Proof. exact (thruster_tone_fits triangle_math triangle_bounded). Defined.

End Tone.

(** ** The main loop *)

Module Loop.
Import Game.

(** *** The random stream through the lander *)

Lemma emit_one_unit vm (b tv : Vector2.t) (g : Random.Rng) :
  Random.unit g -> Random.unit (snd (Lander.emit_one vm b tv g)).
Proof.
  intros Hg. unfold Lander.emit_one, Random.uniform. cbn [snd].
  repeat apply unit_next. exact Hg.
Qed.

Lemma emit_loop_unit vm (n : nat) (b tv : Vector2.t) :
  forall (g : Random.Rng) (ps : list Particle.t),
  Random.unit g -> Random.unit (snd (Lander.emit_loop vm n b tv g ps)).
Proof.
  induction n as [|n IH]; intros g ps Hg; cbn [Lander.emit_loop].
  - exact Hg.
  - pose proof (emit_one_unit vm b tv g Hg) as H1.
    destruct (Lander.emit_one vm b tv g) as [p g1]. cbn [snd] in H1.
    now apply IH.
Qed.

Lemma update_unit vm (dt : Q) (g : Random.Rng) (l : Lander.t) :
  Random.unit g -> Random.unit (snd (Lander.update vm dt g l)).
Proof.
  intros Hg. unfold Lander.update.
  destruct (negb (Status_eqb (Lander.status l) flying)); [exact Hg|].
  destruct (Lander.thrusting l && Py.ltb 0 (Lander.fuel l)).
  - unfold Lander.emit_thruster_particles.
    match goal with
    | |- context [Lander.emit_loop vm 3 ?b ?tv g ?ps] =>
        pose proof (emit_loop_unit vm 3 b tv g ps Hg) as H1;
        destruct (Lander.emit_loop vm 3 b tv g ps) as [ps1 g1]
    end.
    cbn [snd] in H1.
    destruct (screen_size _) as [width height]. exact H1.
  - destruct (screen_size _) as [width height]. exact Hg.
Qed.

Lemma frame_unit vm keys (dt : Q) pad (g : Random.Rng) (l : Lander.t) :
  Random.unit g -> Random.unit (snd (Lander.frame vm keys dt pad g l)).
Proof.
  intros Hg. unfold Lander.frame.
  pose proof (update_unit vm dt g (Lander.handle_input keys dt l) Hg) as H1.
  destruct (Lander.update vm dt g (Lander.handle_input keys dt l)) as [l1 g1].
  exact H1.
Qed.

(** *** Events *)

Lemma handle_events_quit (evs : list Event) :
  forall (l : Lander.t) (pad : LandingPad.t) (ints : Randints),
  handle_events evs l pad ints = None <-> In QUIT evs.
Proof.
  induction evs as [|e rest IH]; intros l pad ints; cbn [handle_events In].
  - split; [discriminate | tauto].
  - destruct e.
    + split; [intros _; now left | reflexivity].
    + rewrite IH. split; [tauto | intros [C|H]; [discriminate | exact H]].
    + rewrite IH. split; [tauto | intros [C|H]; [discriminate | exact H]].
Qed.

Lemma step_quit vm (i : Input) (s : State) :
  step vm i s = None <-> In QUIT (events i).
Proof.
  unfold step.
  rewrite <- (handle_events_quit (events i) (lander s) (landing_pad s)
                                 (randints s)).
  destruct (handle_events (events i) (lander s) (landing_pad s) (randints s))
    as [[[l pad] ints]|].
  - destruct (Lander.frame vm (pressed i) _ pad (rng s) l) as [l1 g1].
    destruct (screen_size config) as [width height].
    destruct (Starfield.draw_starfield width height (starfield s) _ g1)
      as [[stars fs] g2].
    split; discriminate.
  - split; reflexivity.
Qed.

Lemma play_runs vm (inputs : list Input) : forall (s : State),
  Forall (fun i => ~ In QUIT (events i)) inputs ->
  play vm inputs s <> None.
Proof.
  induction inputs as [|i rest IH]; intros s Hq; cbn [play].
  - discriminate.
  - inversion Hq as [|? ? Hi Hrest]; subst.
    destruct (step vm i s) as [s'|] eqn:E.
    + now apply IH.
    + apply (step_quit vm i s) in E. contradiction.
Qed.

(** X16.  The loop ends exactly at the first frame whose events contain
    a QUIT event, whatever the state of the game and whatever else happens
    in that frame; without one it runs through every frame. *)
Theorem quit_ends_the_loop vm (inputs : list Input) : forall (s : State),
  play vm inputs s = None <-> Exists (fun i => In QUIT (events i)) inputs.
Proof.
  induction inputs as [|i rest IH]; intros s; cbn [play].
  - split; [discriminate | intros H; inversion H].
  - destruct (step vm i s) as [s'|] eqn:E.
    + rewrite IH. split.
      * intros H. now apply Exists_cons_tl.
      * intros H. inversion H as [? ? Hq|? ? Hr]; subst; [|exact Hr].
        apply (step_quit vm i s) in Hq. congruence.
    + split; [|reflexivity].
      intros _. apply Exists_cons_hd. now apply (step_quit vm i s).
Qed.

(** X17.  Without a QUIT event, the events of a frame leave the lander
    and the pad alone when [r] was not pressed; when it was, the lander is
    the freshly constructed one (flying at the spawn point with zero
    velocity, a full tank and no particles), whatever it was before, and
    the pad is the one built from the last [random.randint] draw. *)
Theorem reset_restarts_episode (evs : list Event) :
  forall (l : Lander.t) (pad : LandingPad.t) (ints : Randints),
  ~ In QUIT evs ->
  exists ints',
    handle_events evs l pad ints =
      Some (match resets evs with
            | O => (l, pad)
            | S j => (Lander.init config start_pos,
                      LandingPad.init config (ints j))
            end, ints') /\
    forall n, ints' n = ints (n + resets evs)%nat.
Proof.
  induction evs as [|e rest IH]; intros l pad ints Hq;
    cbn [handle_events].
  - exists ints. split; [reflexivity|]. intros n. now rewrite Nat.add_0_r.
  - destruct e.
    + exfalso. apply Hq. now left.
    + destruct (IH (Lander.reset config start_pos l)
                   (LandingPad.init config (ints O))
                   (fun n => ints (S n))) as (ints' & E & Hn).
      { intros H. apply Hq. now right. }
      exists ints'. rewrite E.
      unfold resets in *. cbn [filter is_reset List.length].
      split.
      * destruct (List.length (filter is_reset rest)); reflexivity.
      * intros n. rewrite Hn. f_equal. lia.
    + destruct (IH l pad ints) as (ints' & E & Hn).
      { intros H. apply Hq. now right. }
      exists ints'. unfold resets in *. cbn [filter is_reset].
      split; [exact E | exact Hn].
Qed.

Lemma reset_restarts_episode_witness :
  ~ In QUIT [OtherEvent; KEYDOWN_r] /\
  exists ints',
    handle_events [OtherEvent; KEYDOWN_r] touchdown centre_pad centre_pads =
      Some (Lander.init config start_pos,
            LandingPad.init config (centre_pads O), ints').
Proof.
  assert (Hq : ~ In QUIT [OtherEvent; KEYDOWN_r]).
  { intros [H|[H|[]]]; discriminate. }
  split; [exact Hq|].
  destruct (reset_restarts_episode [OtherEvent; KEYDOWN_r] touchdown
              centre_pad centre_pads Hq) as (ints' & E & _).
  exists ints'. exact E.
Defined.

(** *** The invariant of the game *)

Lemma fresh_lander_in_play :
  Lander.config (Lander.init config start_pos) = config /\
  Lander.in_play (Lander.init config start_pos).
Proof.
  split; [reflexivity|].
  apply Coasting.init_in_play; [| split |]; vm_compute; discriminate.
Qed.

Lemma fresh_pad (x : Z) :
  (LandingPad.x_low config <= x <= LandingPad.x_high config)%Z ->
  let pad := LandingPad.init config x in
  (Rect.w (LandingPad.rect pad) = 160%Z /\
   Rect.h (LandingPad.rect pad) = 12%Z /\
   Rect.y (LandingPad.rect pad) = 642%Z /\
   (40 <= Rect.x (LandingPad.rect pad) <= 760)%Z) /\
  0 <= LandingPad.timer pad.
Proof.
  change (LandingPad.x_low config) with 120%Z.
  change (LandingPad.x_high config) with 840%Z.
  intros Hx pad. subst pad. unfold LandingPad.init, Rect.set_center.
  cbn [LandingPad.rect LandingPad.timer Rect.x Rect.y Rect.w Rect.h].
  change (landing_pad_width config) with 160%Z.
  change (landing_pad_height config) with 12%Z.
  change (snd (screen_size config)) with 720%Z.
  change (Z.shiftr 160 1) with 80%Z. change (Z.shiftr 12 1) with 6%Z.
  split; [|lra].
  split; [reflexivity|]. split; [reflexivity|]. split; [reflexivity | lia].
Qed.

(** The part of [healthy] that the event loop can touch. *)
Lemma handle_events_keeps (evs : list Event) :
  forall (l : Lander.t) (pad : LandingPad.t) (ints : Randints)
         (l' : Lander.t) (pad' : LandingPad.t) (ints' : Randints),
  handle_events evs l pad ints = Some (l', pad', ints') ->
  (forall n, (LandingPad.x_low config <= ints n
              <= LandingPad.x_high config)%Z) ->
  Lander.config l = config -> Lander.in_play l ->
  (Rect.w (LandingPad.rect pad) = 160%Z /\
   Rect.h (LandingPad.rect pad) = 12%Z /\
   Rect.y (LandingPad.rect pad) = 642%Z /\
   (40 <= Rect.x (LandingPad.rect pad) <= 760)%Z) ->
  0 <= LandingPad.timer pad ->
  (forall n, (LandingPad.x_low config <= ints' n
              <= LandingPad.x_high config)%Z) /\
  Lander.config l' = config /\ Lander.in_play l' /\
  (Rect.w (LandingPad.rect pad') = 160%Z /\
   Rect.h (LandingPad.rect pad') = 12%Z /\
   Rect.y (LandingPad.rect pad') = 642%Z /\
   (40 <= Rect.x (LandingPad.rect pad') <= 760)%Z) /\
  0 <= LandingPad.timer pad'.
Proof.
  induction evs as [|e rest IH]; intros l pad ints l' pad' ints' E Hi Hc Hin Hp Ht;
    cbn [handle_events] in E.
  - injection E as <- <- <-.
    split; [exact Hi|]. split; [exact Hc|]. split; [exact Hin|].
    split; [exact Hp | exact Ht].
  - destruct e; [discriminate| |].
    + destruct fresh_lander_in_play as [Hc0 Hin0].
      destruct (fresh_pad (ints O) (Hi O)) as [Hp0 Ht0].
      apply (IH _ _ _ _ _ _ E); try assumption.
      intros n. apply Hi.
    + apply (IH _ _ _ _ _ _ E); assumption.
Qed.

Lemma seconds_nonneg (i : Input) : (0 <= dt_ms i)%Z -> 0 <= seconds i.
Proof.
  intros H. unfold seconds.
  assert (H' : 0 <= inject_Z (dt_ms i))
    by (change 0 with (inject_Z 0); now rewrite <- Zle_Qle).
  apply Qle_shift_div_l; [reflexivity | lra].
Qed.

Lemma speeds_nonneg (stars : list Starfield.Star) :
  Forall (Starfield.on_screen 960 720) stars ->
  Forall (fun v => 5 <= v <= 20) (map snd stars) ->
  Forall (fun s => Starfield.on_screen 960 720 s /\ 0 <= snd s) stars.
Proof.
  induction stars as [|s rest IH]; cbn [map]; intros Ho Hv.
  - constructor.
  - inversion Ho; inversion Hv; subst.
    constructor; [split; [assumption | lra] | now apply IH].
Qed.

Lemma step_healthy vm (i : Input) (s s' : State) :
  (0 <= dt_ms i)%Z -> healthy s -> fed s ->
  step vm i s = Some s' ->
  healthy s' /\ fed s' /\ elapsed s' == elapsed s + seconds i.
Proof.
  intros Hms (Hc & Hin & Hpad & Htm & Hlen & Hon & Hsp & Hel & He0)
         [Hg Hints] E.
  pose proof (seconds_nonneg i Hms) as Hdt.
  unfold step in E. cbv zeta in E. fold (seconds i) in E.
  destruct (handle_events (events i) (lander s) (landing_pad s) (randints s))
    as [[[l pad] ints]|] eqn:Ee; [|discriminate].
  destruct (handle_events_keeps _ _ _ _ _ _ _ Ee Hints Hc Hin Hpad Htm)
    as (Hints' & Hc' & Hin' & Hpad' & Htm').
  assert (Hburn : 0 <= fuel_burn_rate (Lander.config l))
    by (rewrite Hc'; vm_compute; discriminate).
  assert (Hw : (80 <= fst (screen_size (Lander.config l)))%Z)
    by (rewrite Hc'; vm_compute; discriminate).
  destruct (Coasting.frame_in_play vm (pressed i) (seconds i) pad (rng s) l
              Hdt Hburn Hw Hin') as [Hc1 Hin1].
  pose proof (frame_unit vm (pressed i) (seconds i) pad (rng s) l Hg) as Hg1.
  destruct (Lander.frame vm (pressed i) (seconds i) pad (rng s) l) as [l1 g1].
  cbn [fst snd] in Hc1, Hin1, Hg1.
  change (screen_size config) with (960, 720)%Z in E.
  cbv beta iota in E.
  pose proof (Stars.draw_starfield_stars 960 720 (seconds i) (starfield s) g1
                Hg1 Hdt ltac:(lia) ltac:(lia) (speeds_nonneg _ Hon Hsp))
    as (Hm & Hon' & Hg2).
  destruct (Starfield.draw_starfield 960 720 (starfield s) (seconds i) g1)
    as [[stars fs] g2].
  cbn [fst snd] in Hm, Hon', Hg2.
  cbv beta iota zeta in E.
  injection E as <-.
  unfold healthy, fed.
  cbn [lander landing_pad starfield elapsed time_accumulator rng randints
       LandingPad.update LandingPad.rect LandingPad.timer].
  split; [|split; [split; assumption | reflexivity]].
  split; [congruence|]. split; [exact Hin1|]. split; [exact Hpad'|].
  split; [lra|]. split.
  { transitivity (List.length (map snd stars));
      [symmetry; apply length_map|].
    rewrite Hm. etransitivity; [apply length_map | exact Hlen]. }
  split; [exact Hon'|]. split; [rewrite Hm; exact Hsp|].
  split; [rewrite Hel; reflexivity | lra].
Qed.

Lemma start_healthy (g : Random.Rng) (ints : Randints) :
  Random.unit g ->
  (forall n, (LandingPad.x_low config <= ints n
              <= LandingPad.x_high config)%Z) ->
  healthy (start g ints) /\ fed (start g ints) /\ elapsed (start g ints) == 0.
Proof.
  intros Hg Hints. unfold start, Starfield.build_starfield.
  change (screen_size config) with (960, 720)%Z.
  change (Z.to_nat (star_count config)) with 120%nat.
  destruct (Stars.build_loop_spec
              (fun s => Starfield.on_screen 960 720 s /\ 5 <= snd s <= 20)
              960 720 ltac:(lia) ltac:(lia) (fun s A B => conj A B)
              120 g [] Hg (Forall_nil _)) as (Hlen & Hall & Hg').
  destruct (Starfield.build_loop 120 960 720 g []) as [stars g1].
  cbn [fst snd List.length] in Hlen, Hall, Hg'.
  destruct fresh_lander_in_play as [Hc0 Hin0].
  destruct (fresh_pad (ints O) (Hints O)) as [Hp0 Ht0].
  unfold healthy, fed.
  cbn [lander landing_pad starfield elapsed time_accumulator rng randints].
  split; [|split; [split; [exact Hg' | intros n; apply Hints] | reflexivity]].
  split; [exact Hc0|]. split; [exact Hin0|]. split; [exact Hp0|].
  split; [exact Ht0|]. split; [exact Hlen|].
  split; [|split; [|split; [reflexivity | lra]]].
  - eapply Forall_impl; [|exact Hall]. intros s [A _]. exact A.
  - apply Forall_map. eapply Forall_impl; [|exact Hall].
    intros s [_ B]. exact B.
Qed.

Lemma play_healthy vm (inputs : list Input) : forall (s s' : State),
  Forall (fun i => (0 <= dt_ms i)%Z) inputs ->
  healthy s -> fed s ->
  play vm inputs s = Some s' ->
  healthy s' /\ elapsed s' == elapsed s + Lander.total (map seconds inputs).
Proof.
  induction inputs as [|i rest IH]; intros s s' Hms Hh Hf E;
    cbn [play map Lander.total fold_right] in *.
  - injection E as <-. split; [exact Hh | ring].
  - fold (Lander.total (map seconds rest)).
    inversion Hms as [|? ? Hi Hrest]; subst.
    destruct (step vm i s) as [s1|] eqn:Es; [|discriminate].
    destruct (step_healthy vm i s s1 Hi Hh Hf Es) as (Hh1 & Hf1 & He1).
    destruct (IH s1 s' Hrest Hh1 Hf1 E) as [Hh' He'].
    split; [exact Hh'|]. rewrite He', He1. ring.
Qed.

(** X18.  The game keeps its state healthy.  Started as [run_game]
    starts it and fed with random values from the unit interval, pad
    centres from the range given to [random.randint] and frame times that
    are not negative, after any number of frames (with or without resets)
    the lander has the default configuration and is in play (fuel within
    the tank, live particles only, inside the horizontal clamp, above the
    crash line while flying), the pad is the 160 x 12 rectangle at height
    642 with its left edge between 40 and 760, the 120 stars are on the
    screen with speeds between 5 and 20, and both clocks show the sum of
    the frame times. *)
Theorem game_stays_healthy vm (inputs : list Input) (g : Random.Rng)
    (ints : Randints) (s : State) :
  Random.unit g ->
  (forall n, (LandingPad.x_low config <= ints n
              <= LandingPad.x_high config)%Z) ->
  Forall (fun i => (0 <= dt_ms i)%Z) inputs ->
  play vm inputs (start g ints) = Some s ->
  healthy s /\
  elapsed s == Lander.total (map seconds inputs) /\
  time_accumulator s == Lander.total (map seconds inputs).
Proof.
  intros Hg Hints Hms E.
  destruct (start_healthy g ints Hg Hints) as (Hh & Hf & H0).
  destruct (play_healthy vm inputs _ s Hms Hh Hf E) as [Hh' He].
  split; [exact Hh'|].
  assert (Hel : elapsed s == Lander.total (map seconds inputs))
    by (rewrite He, H0; ring).
  split; [exact Hel|].
  destruct Hh' as (_ & _ & _ & _ & _ & _ & _ & Heq & _).
  rewrite <- Heq. exact Hel.
Qed.

Lemma game_stays_healthy_witness :
  let inputs := [ {| dt_ms := 16; events := []; pressed := thrust_keys |};
                  {| dt_ms := 17; events := [OtherEvent; KEYDOWN_r];
                     pressed := no_keys |} ] in
  Random.unit half_rng /\
  (forall n, (LandingPad.x_low config <= centre_pads n
              <= LandingPad.x_high config)%Z) /\
  Forall (fun i => (0 <= dt_ms i)%Z) inputs /\
  exists s, play axis_methods inputs (start half_rng centre_pads) = Some s /\
            healthy s.
Proof.
  intros inputs.
  assert (Hg : Random.unit half_rng).
  { intros n. split; vm_compute; discriminate. }
  assert (Hints : forall n, (LandingPad.x_low config <= centre_pads n
                             <= LandingPad.x_high config)%Z).
  { intros n. split; vm_compute; discriminate. }
  assert (Hms : Forall (fun i => (0 <= dt_ms i)%Z) inputs).
  { repeat (constructor; [vm_compute; discriminate|]). constructor. }
  repeat (split; [assumption|]).
  destruct (play axis_methods inputs (start half_rng centre_pads))
    as [s|] eqn:E.
  - exists s. split; [reflexivity|].
    exact (proj1 (game_stays_healthy axis_methods inputs half_rng centre_pads
                    s Hg Hints Hms E)).
  - exfalso. revert E. apply play_runs.
    repeat (constructor; [cbn; intuition discriminate|]). constructor.
Defined.

End Loop.
